(** * Kargo talk demo: the admission-webhook validator and the logging receiver

    A shallow embedding of [webhook_validator.go] (mock Slack client,
    validator, HTTP transport adapter) and of the stand-alone webhook
    receiver, followed by the properties proved about them.

    Conventions of the embedding
    - Go strings are [string]; [int], [int64] and [time.Duration] are [Z]
      (durations in nanoseconds); Go maps are [gmap]s.
    - A Go [error] value is [option error]: [None] is [nil].
    - The mock Slack client is shared mutable state behind a lock; every
      operation takes the client state and returns the new one.  The lock
      makes each operation atomic, so an operation is one state transition.
    - Wall-clock behaviour (the goroutine, [time.Sleep], the context
      deadline and the [select]) is modelled with logical time, measured in
      nanoseconds from the moment [ValidateMessage] is entered. *)

From Stdlib Require Import ZArith NArith String Ascii List.
From Stdlib Require Import DecimalString HexadecimalString HexadecimalN.
From Stdlib Require Import Floats.
From stdpp Require Import gmap strings list fin_maps.

Local Open Scope string_scope.
Local Open Scope Z_scope.

(** ** Formatting verbs of [fmt] used by the program *)

(** [%d] applied to an integer. *)
Definition sprintf_d (z : Z) : string :=
  DecimalString.NilZero.string_of_int (Z.to_int z).

(** [k] copies of the character [0]. *)
Fixpoint zeros (k : nat) : string :=
  match k with
  | O => ""
  | S k' => String "0" (zeros k')
  end.

(** Lower-case hexadecimal digits of a natural number, no padding. *)
Definition hex_digits (n : N) : string :=
  HexadecimalString.NilZero.string_of_uint (N.to_hex_uint n).

(** [%08x]: hexadecimal, padded on the left with zeros to width 8; longer
    numbers are printed in full. *)
Definition sprintf_08x (n : N) : string :=
  let s := hex_digits n in
  zeros (8 - String.length s) +:+ s.

(** Reading hexadecimal digits back, leading zeros allowed; the inverse
    of [sprintf_08x] used to show that identifiers do not collide. *)
Definition unhex (s : string) : option N :=
  option_map N.of_hex_uint (HexadecimalString.NilEmpty.uint_of_string s).


(** ** Errors *)

(** The error values the program produces: [fmt.Errorf] without [%w],
    [fmt.Errorf] with [%w] (the formatted text and the wrapped error), and
    the two context errors. *)
Inductive error : Type :=
| errorString (s : string)
| wrapError (s : string) (inner : error)
| DeadlineExceeded
| Canceled.

(** The [Error()] method, which is what [%v] prints. *)
Definition Error (e : error) : string :=
  match e with
  | errorString s => s
  | wrapError s _ => s
  | DeadlineExceeded => "context deadline exceeded"
  | Canceled => "context canceled"
  end.

Definition Errorf_w (prefix : string) (inner : error) : error :=
  wrapError (prefix +:+ Error inner) inner.

(** ** Data model *)

Record Subscription : Type := mkSubscription {
  sub_Stage : string;
  sub_Events : list string
}.

Record Metadata : Type := mkMetadata {
  meta_Name : string;
  meta_Namespace : string;
  meta_Labels : gmap string string
}.

Record MessageSpec : Type := mkMessageSpec {
  spec_SlackChannel : string;
  spec_Message : string;
  spec_Team : string;
  spec_ChannelType : string;
  spec_Subscriptions : list Subscription
}.

Record MessageStatus : Type := mkMessageStatus {
  status_CreatedAt : Z;
  status_State : string
}.

Record MockKargoMessage : Type := mkMockKargoMessage {
  msg_APIVersion : string;
  msg_Kind : string;
  msg_Metadata : Metadata;
  msg_Spec : MessageSpec;
  msg_Status : MessageStatus
}.

#[local] Set Warnings "-register-all".

(** A value of static type [any] as [encoding/json] produces it: [nil],
    [bool], [float64], [string], [[]any] or [map[string]any]. *)
Inductive any : Type :=
| any_nil
| any_bool (b : bool)
| any_float64 (f : float)
| any_string (s : string)
| any_slice (l : list any)
| any_map (m : list (string * any)).

Record Resource : Type := mkResource {
  res_Group : string;
  res_Version : string;
  res_Resource : string
}.

Record AdmissionRequest : Type := mkAdmissionRequest {
  req_UID : string;
  req_DryRun : bool;
  req_UserInfo : any;
  req_Object : any;
  req_OldObject : any;
  req_Resource : Resource;
  req_SubResource : string
}.

Record WebhookRequest : Type := mkWebhookRequest {
  wreq_APIVersion : string;
  wreq_Kind : string;
  wreq_Request : AdmissionRequest
}.

(** The [Result] field has static type [any]; the program only ever stores
    [nil] or a [map[string]string] in it. *)
Record AdmissionResponse : Type := mkAdmissionResponse {
  resp_UID : string;
  resp_Allowed : bool;
  resp_Patch : list Byte.byte;
  resp_PatchType : string;
  resp_Result : option (gmap string string)
}.

Record WebhookResponse : Type := mkWebhookResponse {
  wresp_APIVersion : string;
  wresp_Kind : string;
  wresp_Response : AdmissionResponse
}.

(** ** The mock Slack client *)

Record MockSlackClient : Type := mkMockSlackClient {
  channels : gmap string bool;
  conversations : gmap string string;
  lastChannelReq : string
}.

Definition NewMockSlackClient : MockSlackClient :=
  {| channels := ∅; conversations := ∅; lastChannelReq := "" |}.

(** A context, seen from the entry of [ValidateMessage]: [None] never
    becomes done; [Some (t, e)] becomes done at logical time [t] and then
    reports [e] from [Err()]. *)
Definition Context : Type := option (Z * error).

Definition Background : Context := None.

(** [CreateConversation]: the identifier is [C] followed by the current
    number of records in [%08x]; the record is stored under it and the
    requested name remembered.  The error result is always [nil].  The
    parameter list of the source, [name, isPrivate bool], gives [name] the
    type [bool]; the body stores it in the string field [lastChannelReq]
    and the caller passes the channel name, so [name] is a string here.
    The context is not used. *)
Definition CreateConversation (m : MockSlackClient) (ctx : Context)
    (name : string) (isPrivate : bool)
  : MockSlackClient * (string * option error) :=
  let channelID := "C" +:+ sprintf_08x (N.of_nat (size (channels m))) in
  ({| channels := <[channelID := isPrivate]> (channels m);
      conversations := conversations m;
      lastChannelReq := name |},
   (channelID, None)).

(** [ChannelExists]: the comma-ok lookup in [channels]. *)
Definition ChannelExists (m : MockSlackClient) (channelID : string) : bool :=
  bool_decide (is_Some (channels m !! channelID)).

(** ** Logical time *)

Definition Millisecond : Z := 1000000.
Definition Second : Z := 1000 * Millisecond.

(** [context.WithTimeout(parent, d)]: done when the parent is done or when
    [d] has elapsed, whichever is first; an expired timer reports
    [DeadlineExceeded], an earlier parent reports the parent's error. *)
Definition WithTimeout (parent : Context) (d : Z) : Context :=
  match parent with
  | Some (t, e) => if t <? d then Some (t, e) else Some (d, DeadlineExceeded)
  | None => Some (d, DeadlineExceeded)
  end.

(** The two cases of the [select] in [ValidateMessage]. *)
Inductive select_case : Type :=
| RecvDone
| CtxDone (e : error).

(** The [select]: [t_done] is the time at which the goroutine's send on
    [done] becomes receivable.  The case whose event comes first is
    taken; when both come together Go picks one at random, which [tie]
    stands for. *)
Definition select (t_done : Z) (ctx : Context) (tie : bool) : select_case :=
  match ctx with
  | None => RecvDone
  | Some (t, e) =>
      if t_done <? t then RecvDone
      else if t <? t_done then CtxDone e
      else if tie then RecvDone else CtxDone e
  end.

(** What the environment fixes for one call of [ValidateMessage]: the
    value of [time.Now().UnixNano()], the time the goroutine needs besides
    its sleeps until its result can be received, and the random choice of
    a [select] with two ready cases. *)
Record Env : Type := mkEnv {
  now_UnixNano : Z;
  latency : Z;
  tie : bool
}.

(** ** The validator *)

Record Validator : Type := mkValidator {
  slackClient : MockSlackClient;
  timeout : Z
}.

Definition NewValidator (c : MockSlackClient) : Validator :=
  {| slackClient := c; timeout := 30 * Second |}.

(** The loop over [msg.Spec.Subscriptions]. *)
Fixpoint checkSubscriptions (subs : list Subscription) : option error :=
  match subs with
  | [] => None
  | sub :: rest =>
      if String.eqb (sub_Stage sub) "" then
        Some (errorString "subscription stage cannot be empty")
      else if (length (sub_Events sub) =? 0)%nat then
        Some (errorString "subscription must have at least one event")
      else checkSubscriptions rest
  end.

(** [validateSlackChannelCreation]: returns the client state it leaves,
    the total time it slept, and its error. *)
Definition validateSlackChannelCreation (m : MockSlackClient) (ctx : Context)
    (msg : MockKargoMessage) : MockSlackClient * Z * option error :=
  if String.eqb (spec_SlackChannel (msg_Spec msg)) "" then
    (m, 0, Some (errorString "slackChannel is required"))
  else if String.eqb (meta_Namespace (msg_Metadata msg)) "" then
    (m, 0, Some (errorString "namespace is required"))
  else
    let '(m1, (channelID, err)) :=
      CreateConversation m ctx (spec_SlackChannel (msg_Spec msg))
        (String.eqb (spec_ChannelType (msg_Spec msg)) "private") in
    match err with
    | Some e => (m1, 0, Some (Errorf_w "failed to create Slack channel: " e))
    | None =>
        if negb (ChannelExists m1 channelID) then
          (m1, 0, Some (errorString
             ("Slack channel " +:+ channelID +:+ " not found after creation")))
        else
          (m1, 100 * Millisecond,
           checkSubscriptions (spec_Subscriptions (msg_Spec msg)))
    end.

Definition newResponse (now : Z) : WebhookResponse :=
  {| wresp_APIVersion := "admission.k8s.io/v1";
     wresp_Kind := "AdmissionReview";
     wresp_Response :=
       {| resp_UID := "test-uid-" +:+ sprintf_d now;
          resp_Allowed := true;
          resp_Patch := [];
          resp_PatchType := "";
          resp_Result := None |} |}.

(** [resp.Response.Allowed = false] followed by the assignment of the
    two-entry result map. *)
Definition deny (resp : WebhookResponse) (reason : string) : WebhookResponse :=
  {| wresp_APIVersion := wresp_APIVersion resp;
     wresp_Kind := wresp_Kind resp;
     wresp_Response :=
       {| resp_UID := resp_UID (wresp_Response resp);
          resp_Allowed := false;
          resp_Patch := resp_Patch (wresp_Response resp);
          resp_PatchType := resp_PatchType (wresp_Response resp);
          resp_Result :=
            Some (<["reason" := reason]> (<["status" := "Failure"]> ∅)) |} |}.

(** [ValidateMessage].  The source text of the [select] lacks the brace
    that closes [if err != nil] before the second [case]; the embedding
    reads it with that brace in place, as the indentation and the final
    [return resp, nil] show: a received [nil] falls through to the
    success return.  The goroutine is not stopped by the deadline, so the
    client state returned is the one the check leaves, whichever case
    wins. *)
Definition ValidateMessage (v : Validator) (env : Env) (ctx : Context)
    (msg : MockKargoMessage)
  : MockSlackClient * (WebhookResponse * option error) :=
  let resp := newResponse (now_UnixNano env) in
  let asyncCtx := WithTimeout ctx (timeout v) in
  let '(m', slept, err) :=
    validateSlackChannelCreation (slackClient v) asyncCtx msg in
  match select (slept + latency env) asyncCtx (tie env) with
  | RecvDone =>
      match err with
      | Some e =>
          (m', (deny resp ("Slack channel validation failed: " +:+ Error e),
                Some e))
      | None => (m', (resp, None))
      end
  | CtxDone cerr =>
      (m', (deny resp "Slack channel validation timeout", Some cerr))
  end.

(** ** HTTP: the parts of [net/http] the handlers use *)

Definition StatusOK : Z := 200.
Definition StatusBadRequest : Z := 400.
Definition StatusUnauthorized : Z := 401.
Definition StatusForbidden : Z := 403.
Definition StatusMethodNotAllowed : Z := 405.
Definition StatusInternalServerError : Z := 500.
Definition MethodPost : string := "POST".

Definition LF : string := String (ascii_of_nat 10) "".

(** An inbound request: [Body] is what [io.ReadAll(r.Body)] returns, [Ctx]
    is [r.Context()].  Header keys are in canonical form, as the server
    stores them. *)
Record Request : Type := mkRequest {
  Method : string;
  Header : gmap string (list string);
  Body : string + error;
  Ctx : Context
}.

(** What a handler has written: the header map, the status line once it
    is written, and the body so far. *)
Record ResponseWriter : Type := mkResponseWriter {
  rw_Header : gmap string (list string);
  rw_Status : option Z;
  rw_Body : string
}.

Definition NewRecorder : ResponseWriter :=
  {| rw_Header := ∅; rw_Status := None; rw_Body := "" |}.

(** [Header.Get]: the first value stored under the key, or the empty
    string. *)
Definition Header_Get (h : gmap string (list string)) (key : string) : string :=
  match h !! key with
  | Some (v :: _) => v
  | _ => ""
  end.

Definition Header_Set (key value : string) (w : ResponseWriter) : ResponseWriter :=
  {| rw_Header := <[key := [value]]> (rw_Header w);
     rw_Status := rw_Status w;
     rw_Body := rw_Body w |}.

(** [WriteHeader]: the first call fixes the status, later calls are
    ignored. *)
Definition WriteHeader (code : Z) (w : ResponseWriter) : ResponseWriter :=
  match rw_Status w with
  | Some _ => w
  | None =>
      {| rw_Header := rw_Header w; rw_Status := Some code; rw_Body := rw_Body w |}
  end.

(** [Write]: writes the status 200 first when none was written. *)
Definition Write (data : string) (w : ResponseWriter) : ResponseWriter :=
  let w1 := WriteHeader StatusOK w in
  {| rw_Header := rw_Header w1;
     rw_Status := rw_Status w1;
     rw_Body := rw_Body w1 +:+ data |}.

(** [http.Error]: plain-text content type, the status, the message and a
    newline. *)
Definition http_Error (w : ResponseWriter) (msg : string) (code : Z) : ResponseWriter :=
  Write (msg +:+ LF)
    (WriteHeader code
       (Header_Set "X-Content-Type-Options" "nosniff"
          (Header_Set "Content-Type" "text/plain; charset=utf-8" w))).

(** ** The transport adapter *)

Section TransportAdapter.

  (** [encoding/json] is outside the repository; the adapter is
      parametrised by the four conversions it calls:
      [json.Unmarshal] into a [WebhookRequest], [json.Marshal] of the
      object map (its error is dropped by the handler), [json.Unmarshal]
      into a zero [MockKargoMessage] (its error is dropped, the message is
      used as it was left), and the text [Encode] writes for a
      [WebhookResponse] pointer (without the trailing newline). *)
Variable Unmarshal_WebhookRequest : string -> WebhookRequest + error.
Variable Marshal_object : list (string * any) -> string.
Variable Unmarshal_MockKargoMessage : string -> MockKargoMessage.
Variable Marshal_WebhookResponse : WebhookResponse -> string.

Definition Encode_WebhookResponse (resp : WebhookResponse)
      (w : ResponseWriter) : ResponseWriter :=
    Write (Marshal_WebhookResponse resp +:+ LF) w.

  (** [WebhookHandler]: returns the client state and the response
      written. *)
Definition WebhookHandler (v : Validator) (env : Env) (w : ResponseWriter)
      (r : Request) : MockSlackClient * ResponseWriter :=
    match Body r with
    | inr _ =>
        (slackClient v, http_Error w "Failed to read request body" StatusBadRequest)
    | inl body =>
        match Unmarshal_WebhookRequest body with
        | inr _ =>
            (slackClient v, http_Error w "Failed to parse JSON" StatusBadRequest)
        | inl req =>
            match req_Object (wreq_Request req) with
            | any_map obj =>
                let msgBytes := Marshal_object obj in
                let msg := Unmarshal_MockKargoMessage msgBytes in
                let '(m', (resp, err)) := ValidateMessage v env (Ctx r) msg in
                match err with
                | Some _ =>
                    (m', Encode_WebhookResponse resp
                           (WriteHeader StatusInternalServerError w))
                | None =>
                    (m', Encode_WebhookResponse resp
                           (Header_Set "Content-Type" "application/json" w))
                end
            | _ =>
                (slackClient v, http_Error w "Invalid object format" StatusBadRequest)
            end
        end
    end.

End TransportAdapter.

(** ** The logging webhook receiver *)

Module Receiver.

Definition port : string := "8080".
Definition webhookPath : string := "/webhook".
Definition secretHeader : string := "X-Webhook-Secret".
Definition expectedSecret : string := "my-super-secret-123".

Section Handlers.

    (** The text [Encode] writes for a [map[string]string], without the
        trailing newline. *)
Variable Marshal_stringmap : gmap string string -> string.

    (** [webhookHandler]; the log lines, which do not touch the response,
        are left out, and with them the decoding of the body that only
        feeds a log line. *)
Definition webhookHandler (w : ResponseWriter) (r : Request) : ResponseWriter :=
      if negb (String.eqb (Method r) MethodPost) then
        http_Error w "Method not allowed" StatusMethodNotAllowed
      else
        let secret := Header_Get (Header r) secretHeader in
        if negb (String.eqb secret "") then
          if negb (String.eqb secret expectedSecret) then
            http_Error w "Forbidden" StatusForbidden
          else
            match Body r with
            | inr _ => http_Error w "Bad request" StatusBadRequest
            | inl _ =>
                Write (Marshal_stringmap
                         (<["message" := "Webhook received successfully"]> ∅) +:+ LF)
                  (WriteHeader StatusOK
                     (Header_Set "Content-Type" "application/json" w))
            end
        else
          http_Error w "Missing secret header" StatusUnauthorized.

Definition healthHandler (w : ResponseWriter) (r : Request) : ResponseWriter :=
      Write "OK" (WriteHeader StatusOK w).

End Handlers.

End Receiver.

(** ** Histories of the shared client *)

(** What callers can do to a client: its two methods, and a run of the
    domain check (which is how the validator uses it). *)
Inductive client_op : Type :=
| OpCreate (ctx : Context) (name : string) (isPrivate : bool)
| OpExists (channelID : string)
| OpValidate (ctx : Context) (msg : MockKargoMessage).

Definition run_op (m : MockSlackClient) (op : client_op) : MockSlackClient :=
  match op with
  | OpCreate ctx name isPrivate => fst (CreateConversation m ctx name isPrivate)
  | OpExists _ => m
  | OpValidate ctx msg => fst (fst (validateSlackChannelCreation m ctx msg))
  end.

Definition run_ops (m : MockSlackClient) (ops : list client_op) : MockSlackClient :=
  fold_left run_op ops m.

(** The client states a program can reach from [NewMockSlackClient]. *)
Inductive reachable : MockSlackClient -> Prop :=
| reachable_new : reachable NewMockSlackClient
| reachable_op m op : reachable m -> reachable (run_op m op).

(** The identifier [CreateConversation] hands out when the registry holds
    [i] records. *)
Definition channelID_at (i : nat) : string :=
  "C" +:+ sprintf_08x (N.of_nat i).

(** Every identifier in the registry was handed out at a smaller size. *)
Definition ids_dense (m : MockSlackClient) : Prop :=
  forall id, is_Some (channels m !! id) ->
    exists i, (i < size (channels m))%nat /\ id = channelID_at i.

(** A subscription entry the check accepts. *)
Definition sub_ok (s : Subscription) : Prop :=
  sub_Stage s <> "" /\ sub_Events s <> [].

(** The check's result was receivable strictly before the context of the
    call was done: [d] is the time the check took. *)
Definition received_in_time (v : Validator) (ctx : Context) (d : Z) : Prop :=
  d < timeout v /\ forall t e, ctx = Some (t, e) -> d < t.


(** ** Test fixtures of the repository *)

Definition mkMsg (name ns channel message channelType : string)
    (subs : list Subscription) : MockKargoMessage :=
  {| msg_APIVersion := "kargo.akuity.io/v1alpha1";
     msg_Kind := "SlackMessage";
     msg_Metadata := {| meta_Name := name; meta_Namespace := ns; meta_Labels := ∅ |};
     msg_Spec := {| spec_SlackChannel := channel; spec_Message := message;
                    spec_Team := ""; spec_ChannelType := channelType;
                    spec_Subscriptions := subs |};
     msg_Status := {| status_CreatedAt := 0; status_State := "" |} |}.

(** The message of [TestWebhookValidator_Success] (labels left out). *)
Definition successMsg : MockKargoMessage :=
  mkMsg "test-slack-msg" "kargo" "kargo-notifications"
    "Pipeline {{.Stage.Name}} completed successfully" "public"
    [ {| sub_Stage := "production"; sub_Events := ["PromoteSucceeded"] |};
      {| sub_Stage := "staging"; sub_Events := ["PromoteFailed"] |} ].

(** The message of [TestWebhookValidator_MissingChannel]. *)
Definition missingChannelMsg : MockKargoMessage :=
  mkMsg "invalid-msg" "kargo" "" "Test message" "" [].

(** The message of [TestTimeoutValidation]. *)
Definition timeoutMsg : MockKargoMessage :=
  mkMsg "timeout-test" "kargo" "timeout-channel" "This should timeout" "" [].

(** A message whose second subscription has no events. *)
Definition badSubsMsg : MockKargoMessage :=
  mkMsg "bad-subs" "kargo" "kargo-notifications" "m" "private"
    [ {| sub_Stage := "production"; sub_Events := ["PromoteSucceeded"] |};
      {| sub_Stage := "staging"; sub_Events := [] |};
      {| sub_Stage := ""; sub_Events := ["PromoteFailed"] |} ].

(** The message of [TestWebhookValidator_HTTPHandler]. *)
Definition httpTestMsg : MockKargoMessage :=
  mkMsg "http-test" "default" "devops-notifications"
    "Deployment {{.Pipeline.Name}} succeeded" "" [].

Definition zeroMsg : MockKargoMessage := mkMsg "" "" "" "" "" [].

(** A request envelope with the given uid and object, the resource of the
    HTTP test, and zero values elsewhere. *)
Definition mkWebhookReq (uid : string) (obj : any) : WebhookRequest :=
  {| wreq_APIVersion := "admission.k8s.io/v1";
     wreq_Kind := "AdmissionReview";
     wreq_Request :=
       {| req_UID := uid; req_DryRun := false; req_UserInfo := any_nil;
          req_Object := obj; req_OldObject := any_nil;
          req_Resource := {| res_Group := "kargo.akuity.io";
                             res_Version := "v1alpha1";
                             res_Resource := "slackmessages" |};
          req_SubResource := "" |} |}.

(** The object of the HTTP test as [encoding/json] decodes it into [any]
    (the fields the check reads). *)
Definition httpTestObject : list (string * any) :=
  [ ("metadata", any_map [("name", any_string "http-test");
                          ("namespace", any_string "default")]);
    ("spec", any_map [("slackChannel", any_string "devops-notifications")]) ].

(** A table that stands for [encoding/json] on four request bodies, used
    where a property is run on a concrete request: the body [http-test]
    stands for the envelope of the HTTP test, [empty-object] for an
    envelope whose object is an empty JSON object, [string-object] for one
    whose object is a JSON string, and every other body is taken as
    malformed. *)
Definition table_Unmarshal_WebhookRequest (body : string) : WebhookRequest + error :=
  if String.eqb body "http-test" then
    inl (mkWebhookReq "test-http-uid" (any_map httpTestObject))
  else if String.eqb body "empty-object" then
    inl (mkWebhookReq "uid-2" (any_map []))
  else if String.eqb body "string-object" then
    inl (mkWebhookReq "uid-3" (any_string "not a mapping"))
  else inr (errorString "unexpected end of JSON input").

Definition table_Marshal_object (obj : list (string * any)) : string :=
  match obj with
  | [] => "{}"
  | _ => "http-test-object"
  end.

Definition table_Unmarshal_MockKargoMessage (text : string) : MockKargoMessage :=
  if String.eqb text "http-test-object" then httpTestMsg else zeroMsg.

Definition table_Marshal_WebhookResponse (resp : WebhookResponse) : string :=
  resp_UID (wresp_Response resp) +:+
  (if resp_Allowed (wresp_Response resp) then " allowed" else " denied").

Definition table_Marshal_stringmap (m : gmap string string) : string :=
  default "" (m !! "message").

Definition postRequest (body : string) (hdr : gmap string (list string)) : Request :=
  {| Method := "POST"; Header := hdr; Body := inl body; Ctx := Background |}.

(** An environment in which the goroutine needs 1ms besides its sleep. *)
Definition env0 : Env :=
  {| now_UnixNano := 1700000000000000000; latency := Millisecond; tie := false |}.

(** ** Notions used by the further properties *)

(** Every identifier below the registry size is in the registry. *)
Definition ids_complete (m : MockSlackClient) : Prop :=
  forall i, (i < size (channels m))%nat -> is_Some (channels m !! channelID_at i).

(** Whether an operation reaches [CreateConversation]: a direct call does,
    an existence check does not, and a run of the domain check does when
    both required fields are present. *)
Definition creates (op : client_op) : bool :=
  match op with
  | OpCreate _ _ _ => true
  | OpExists _ => false
  | OpValidate _ msg =>
      negb (String.eqb (spec_SlackChannel (msg_Spec msg)) "") &&
      negb (String.eqb (meta_Namespace (msg_Metadata msg)) "")
  end.

(** A message with a channel and no namespace. *)
Definition missingNamespaceMsg : MockKargoMessage :=
  mkMsg "no-namespace" "" "kargo-notifications" "Test message" "private" [].

(** A request whose body cannot be read. *)
Definition unreadableRequest : Request :=
  {| Method := "POST"; Header := ∅;
     Body := inr (errorString "unexpected EOF"); Ctx := Background |}.




(** * Properties *)

(** ** The program on concrete inputs *)

Example sprintf_08x_255 : sprintf_08x 255 = "000000ff".
Proof. reflexivity. Qed.

Example sprintf_08x_wide : sprintf_08x 4886718345 = "123456789".
Proof. reflexivity. Qed.

Example sprintf_d_neg : sprintf_d (-120) = "-120".
Proof. reflexivity. Qed.

Example CreateConversation_first :
  snd (CreateConversation NewMockSlackClient Background "general" false)
  = ("C00000000", None).
Proof. reflexivity. Qed.

(** [TestWebhookValidator_Success]: no error, allowed, a uid. *)
Example test_Success :
  snd (ValidateMessage (NewValidator NewMockSlackClient) env0 Background successMsg)
  = (newResponse 1700000000000000000, None).
Proof. vm_compute. reflexivity. Qed.

(** [TestWebhookValidator_MissingChannel]: an error and a denial. *)
Example test_MissingChannel :
  snd (ValidateMessage (NewValidator NewMockSlackClient) env0 Background missingChannelMsg)
  = (deny (newResponse 1700000000000000000)
       "Slack channel validation failed: slackChannel is required",
     Some (errorString "slackChannel is required")).
Proof. vm_compute. reflexivity. Qed.

(** [TestTimeoutValidation]: with a budget of 10ms the 100ms sleep loses. *)
Example test_Timeout :
  snd (ValidateMessage {| slackClient := NewMockSlackClient; timeout := 10 * Millisecond |}
         env0 Background timeoutMsg)
  = (deny (newResponse 1700000000000000000) "Slack channel validation timeout",
     Some DeadlineExceeded).
Proof. vm_compute. reflexivity. Qed.

(** The goroutine is not stopped: the timed-out call still left a channel. *)
Example test_Timeout_client :
  ChannelExists
    (fst (ValidateMessage {| slackClient := NewMockSlackClient; timeout := 10 * Millisecond |}
            env0 Background timeoutMsg)) "C00000000" = true.
Proof. vm_compute. reflexivity. Qed.

(** [TestWebhookValidator_HTTPHandler], on the table codec: status 200 and
    the channel name recorded by the client. *)
Example test_HTTPHandler :
  let out := WebhookHandler table_Unmarshal_WebhookRequest table_Marshal_object
               table_Unmarshal_MockKargoMessage table_Marshal_WebhookResponse
               (NewValidator NewMockSlackClient) env0 NewRecorder
               (postRequest "http-test" ∅) in
  rw_Status (snd out) = Some StatusOK /\
  lastChannelReq (fst out) = "devops-notifications".
Proof. vm_compute. split; reflexivity. Qed.

(** ** Formatting *)

Lemma eqb_empty (s : string) : String.eqb s "" = true <-> s = "".
Proof. apply String.eqb_eq. Qed.

Lemma eqb_nonempty (s : string) : String.eqb s "" = false <-> s <> "".
Proof. apply String.eqb_neq. Qed.

Lemma unhex_zero (s : string) : unhex (String "0" s) = unhex s.
Proof.
  unfold unhex. cbn [HexadecimalString.NilEmpty.uint_of_string].
  destruct (HexadecimalString.NilEmpty.uint_of_string s) as [d|]; reflexivity.
Qed.

Lemma unhex_zeros (k : nat) (s : string) : unhex (zeros k +:+ s) = unhex s.
Proof.
  induction k as [|k IH]; [reflexivity|].
  cbn [zeros]. change (String "0" (zeros k) +:+ s) with (String "0" (zeros k +:+ s)).
  now rewrite unhex_zero.
Qed.

Lemma unhex_string_of_uint (d : Hexadecimal.uint) :
  unhex (HexadecimalString.NilZero.string_of_uint d) = Some (N.of_hex_uint d).
Proof.
  unfold unhex.
  destruct d; try reflexivity;
    cbn [HexadecimalString.NilZero.string_of_uint];
    now rewrite HexadecimalString.NilEmpty.usu.
Qed.

Lemma unhex_hex_digits (n : N) : unhex (hex_digits n) = Some n.
Proof.
  unfold hex_digits.
  now rewrite unhex_string_of_uint, HexadecimalN.Unsigned.of_to.
Qed.

Lemma sprintf_08x_inj (a b : N) : sprintf_08x a = sprintf_08x b -> a = b.
Proof.
  unfold sprintf_08x. cbv zeta. intros H.
  apply (f_equal unhex) in H.
  rewrite !unhex_zeros, !unhex_hex_digits in H. now inversion H.
Qed.

(** ** The client *)

Lemma channelID_at_inj (i j : nat) : channelID_at i = channelID_at j -> i = j.
Proof.
  unfold channelID_at. intros H. inversion H as [H'].
  apply sprintf_08x_inj in H'. lia.
Qed.

Lemma CreateConversation_eq (m : MockSlackClient) (ctx : Context)
    (name : string) (isPrivate : bool) :
  CreateConversation m ctx name isPrivate =
  ({| channels := <[channelID_at (size (channels m)) := isPrivate]> (channels m);
      conversations := conversations m;
      lastChannelReq := name |},
   (channelID_at (size (channels m)), None)).
Proof. reflexivity. Qed.

Lemma ChannelExists_true (m : MockSlackClient) (id : string) :
  ChannelExists m id = true <-> is_Some (channels m !! id).
Proof. unfold ChannelExists. apply bool_decide_eq_true. Qed.

Lemma ChannelExists_created (m : MockSlackClient) (ctx : Context)
    (name : string) (isPrivate : bool) :
  ChannelExists (fst (CreateConversation m ctx name isPrivate))
    (fst (snd (CreateConversation m ctx name isPrivate))) = true.
Proof.
  rewrite CreateConversation_eq. cbn [fst snd].
  apply ChannelExists_true. cbn [channels].
  rewrite lookup_insert_eq. eauto.
Qed.

Lemma fresh_id (m : MockSlackClient) :
  ids_dense m -> channels m !! channelID_at (size (channels m)) = None.
Proof.
  intros Hd. destruct (channels m !! channelID_at (size (channels m))) as [b|] eqn:E;
    [|reflexivity].
  destruct (Hd _ (ex_intro _ b E)) as (i & Hi & Heq).
  apply channelID_at_inj in Heq. lia.
Qed.

Lemma CreateConversation_size (m : MockSlackClient) (ctx : Context)
    (name : string) (isPrivate : bool) :
  ids_dense m ->
  size (channels (fst (CreateConversation m ctx name isPrivate)))
  = S (size (channels m)).
Proof.
  intros Hd. rewrite CreateConversation_eq. cbn [fst channels].
  apply map_size_insert_None, fresh_id, Hd.
Qed.

Lemma CreateConversation_dense (m : MockSlackClient) (ctx : Context)
    (name : string) (isPrivate : bool) :
  ids_dense m -> ids_dense (fst (CreateConversation m ctx name isPrivate)).
Proof.
  intros Hd id Hid.
  rewrite (CreateConversation_size m ctx name isPrivate Hd).
  rewrite CreateConversation_eq in Hid. cbn [fst channels] in Hid.
  destruct (decide (channelID_at (size (channels m)) = id)) as [<-|Hne].
  - exists (size (channels m)). split; [lia|reflexivity].
  - rewrite lookup_insert_ne in Hid by exact Hne.
    destruct (Hd id Hid) as (i & Hi & ->). exists i. split; [lia|reflexivity].
Qed.

Lemma CreateConversation_keeps (m : MockSlackClient) (ctx : Context)
    (name : string) (isPrivate : bool) (id : string) (b : bool) :
  ids_dense m -> channels m !! id = Some b ->
  channels (fst (CreateConversation m ctx name isPrivate)) !! id = Some b.
Proof.
  intros Hd Hid. rewrite CreateConversation_eq. cbn [fst channels].
  rewrite lookup_insert_ne; [exact Hid|].
  intros <-. rewrite (fresh_id m Hd) in Hid. discriminate.
Qed.

Lemma CreateConversation_exists_mono (m : MockSlackClient) (ctx : Context)
    (name : string) (isPrivate : bool) (id : string) :
  ChannelExists m id = true ->
  ChannelExists (fst (CreateConversation m ctx name isPrivate)) id = true.
Proof.
  rewrite !ChannelExists_true, CreateConversation_eq. cbn [fst channels].
  intros Hid. destruct (decide (channelID_at (size (channels m)) = id)) as [<-|Hne].
  - rewrite lookup_insert_eq. eauto.
  - now rewrite lookup_insert_ne.
Qed.

(** ** The domain check *)

(** The check either leaves the client alone (a required field is empty)
    or performs exactly one [CreateConversation]. *)
Lemma validate_client (m : MockSlackClient) (ctx : Context) (msg : MockKargoMessage) :
  fst (fst (validateSlackChannelCreation m ctx msg)) =
  if String.eqb (spec_SlackChannel (msg_Spec msg)) "" then m
  else if String.eqb (meta_Namespace (msg_Metadata msg)) "" then m
  else fst (CreateConversation m ctx (spec_SlackChannel (msg_Spec msg))
              (String.eqb (spec_ChannelType (msg_Spec msg)) "private")).
Proof.
  unfold validateSlackChannelCreation.
  destruct (String.eqb (spec_SlackChannel (msg_Spec msg)) ""); [reflexivity|].
  destruct (String.eqb (meta_Namespace (msg_Metadata msg)) ""); [reflexivity|].
  rewrite CreateConversation_eq. cbn [fst snd].
  match goal with |- context [negb ?b] => destruct b end; reflexivity.
Qed.

(** With both required fields present the check creates the channel, finds
    it, sleeps 100ms and then walks the subscriptions. *)
Lemma validate_past_fields (m : MockSlackClient) (ctx : Context) (msg : MockKargoMessage) :
  spec_SlackChannel (msg_Spec msg) <> "" ->
  meta_Namespace (msg_Metadata msg) <> "" ->
  validateSlackChannelCreation m ctx msg =
  (fst (CreateConversation m ctx (spec_SlackChannel (msg_Spec msg))
          (String.eqb (spec_ChannelType (msg_Spec msg)) "private")),
   100 * Millisecond,
   checkSubscriptions (spec_Subscriptions (msg_Spec msg))).
Proof.
  intros Hc Hn. unfold validateSlackChannelCreation.
  apply eqb_nonempty in Hc. apply eqb_nonempty in Hn. rewrite Hc, Hn.
  pose proof (ChannelExists_created m ctx (spec_SlackChannel (msg_Spec msg))
                (String.eqb (spec_ChannelType (msg_Spec msg)) "private")) as Hex.
  rewrite CreateConversation_eq in *. cbn [fst snd] in *.
  rewrite Hex. reflexivity.
Qed.

Lemma checkSubscriptions_ok (subs : list Subscription) :
  Forall sub_ok subs -> checkSubscriptions subs = None.
Proof.
  induction 1 as [|s subs [Hs He] _ IH]; [reflexivity|].
  cbn [checkSubscriptions].
  apply eqb_nonempty in Hs. rewrite Hs.
  destruct (sub_Events s); [congruence|]. exact IH.
Qed.

Lemma checkSubscriptions_skip (pre rest : list Subscription) :
  Forall sub_ok pre -> checkSubscriptions (pre ++ rest) = checkSubscriptions rest.
Proof.
  induction 1 as [|s subs [Hs He] _ IH]; [reflexivity|].
  cbn [checkSubscriptions app].
  apply eqb_nonempty in Hs. rewrite Hs.
  destruct (sub_Events s); [congruence|]. exact IH.
Qed.

(** ** Histories *)

Lemma run_op_dense (m : MockSlackClient) (op : client_op) :
  ids_dense m -> ids_dense (run_op m op).
Proof.
  intros Hd. destruct op as [ctx name p| id |ctx msg]; cbn [run_op].
  - now apply CreateConversation_dense.
  - exact Hd.
  - rewrite validate_client.
    repeat match goal with |- context [if ?b then _ else _] => destruct b end;
      auto using CreateConversation_dense.
Qed.

Lemma reachable_dense (m : MockSlackClient) : reachable m -> ids_dense m.
Proof.
  induction 1 as [|m op _ IH].
  - intros id [b Hb]. cbn in Hb. rewrite lookup_empty in Hb. discriminate.
  - now apply run_op_dense.
Qed.

Lemma run_op_exists_mono (m : MockSlackClient) (op : client_op) (id : string) :
  ChannelExists m id = true -> ChannelExists (run_op m op) id = true.
Proof.
  intros H. destruct op as [ctx name p| id' |ctx msg]; cbn [run_op].
  - now apply CreateConversation_exists_mono.
  - exact H.
  - rewrite validate_client.
    repeat match goal with |- context [if ?b then _ else _] => destruct b end;
      auto using CreateConversation_exists_mono.
Qed.

Lemma run_op_keeps (m : MockSlackClient) (op : client_op) (id : string) (b : bool) :
  ids_dense m -> channels m !! id = Some b -> channels (run_op m op) !! id = Some b.
Proof.
  intros Hd H. destruct op as [ctx name p| id' |ctx msg]; cbn [run_op].
  - now apply CreateConversation_keeps.
  - exact H.
  - rewrite validate_client.
    repeat match goal with |- context [if ?b then _ else _] => destruct b end;
      auto using CreateConversation_keeps.
Qed.

Lemma run_ops_exists_mono (ops : list client_op) (m : MockSlackClient) (id : string) :
  ChannelExists m id = true -> ChannelExists (run_ops m ops) id = true.
Proof.
  revert m. induction ops as [|op ops IH]; intros m H; [exact H|].
  cbn [run_ops fold_left]. apply IH, run_op_exists_mono, H.
Qed.

Lemma run_ops_keeps (ops : list client_op) (m : MockSlackClient) (id : string) (b : bool) :
  ids_dense m -> channels m !! id = Some b -> channels (run_ops m ops) !! id = Some b.
Proof.
  revert m. induction ops as [|op ops IH]; intros m Hd H; [exact H|].
  cbn [run_ops fold_left]. apply IH; [now apply run_op_dense|now apply run_op_keeps].
Qed.

(** ** Claims about the client *)

(** C8. An identifier returned by [CreateConversation] exists from then
    on: after any further history of creations, existence checks and
    validations on the same client, [ChannelExists] answers [true] for
    it; and on a client reached from [NewMockSlackClient] the record
    stored for it (its visibility flag) is never overwritten either. *)
Theorem C8_created_channel_persists (m : MockSlackClient) (ctx : Context)
    (name : string) (isPrivate : bool) (ops : list client_op) :
  let m1 := fst (CreateConversation m ctx name isPrivate) in
  let id := fst (snd (CreateConversation m ctx name isPrivate)) in
  snd (snd (CreateConversation m ctx name isPrivate)) = None /\
  ChannelExists (run_ops m1 ops) id = true /\
  (reachable m -> channels (run_ops m1 ops) !! id = Some isPrivate).
Proof.
  cbv zeta. split; [reflexivity|]. split.
  - apply run_ops_exists_mono, ChannelExists_created.
  - intros Hr. apply reachable_dense in Hr.
    apply run_ops_keeps.
    + now apply CreateConversation_dense.
    + rewrite CreateConversation_eq. cbn [fst snd channels].
      apply lookup_insert_eq.
Qed.

Lemma C8_created_channel_persists_witness :
  ChannelExists
    (run_ops (fst (CreateConversation NewMockSlackClient Background "general" true))
       [OpCreate Background "random" false; OpExists "C00000000";
        OpValidate Background badSubsMsg; OpCreate Background "ops" false])
    "C00000000" = true /\
  channels
    (run_ops (fst (CreateConversation NewMockSlackClient Background "general" true))
       [OpCreate Background "random" false; OpExists "C00000000";
        OpValidate Background badSubsMsg; OpCreate Background "ops" false])
    !! "C00000000" = Some true.
Proof.
  pose proof (C8_created_channel_persists NewMockSlackClient Background "general" true
    [OpCreate Background "random" false; OpExists "C00000000";
     OpValidate Background badSubsMsg; OpCreate Background "ops" false]) as H.
  cbv zeta in H. destruct H as (_ & H1 & H2).
  split; [exact H1 | exact (H2 reachable_new)].
Defined.

(** C9. Validation is not atomic with respect to the registry: when the
    channel and the namespace are present but some subscription entry is
    malformed, the call is denied (whichever [select] case wins), and yet
    the client it leaves holds one record more than before, under an
    identifier that was not in the registry, and remembers the requested
    channel name. *)
Theorem C9_denied_validation_still_creates (v : Validator) (env : Env)
    (ctx : Context) (msg : MockKargoMessage) :
  reachable (slackClient v) ->
  spec_SlackChannel (msg_Spec msg) <> "" ->
  meta_Namespace (msg_Metadata msg) <> "" ->
  Exists (fun s => ~ sub_ok s) (spec_Subscriptions (msg_Spec msg)) ->
  let m' := fst (ValidateMessage v env ctx msg) in
  let resp := fst (snd (ValidateMessage v env ctx msg)) in
  let id := channelID_at (size (channels (slackClient v))) in
  resp_Allowed (wresp_Response resp) = false /\
  snd (snd (ValidateMessage v env ctx msg)) <> None /\
  channels (slackClient v) !! id = None /\
  ChannelExists m' id = true /\
  size (channels m') = S (size (channels (slackClient v))) /\
  lastChannelReq m' = spec_SlackChannel (msg_Spec msg) /\
  m' <> slackClient v.
Proof.
  intros Hr Hc Hn Hbad. cbv zeta.
  apply reachable_dense in Hr.
  assert (Herr : checkSubscriptions (spec_Subscriptions (msg_Spec msg)) <> None).
  { induction Hbad as [s rest Hs | s rest _ IH]; cbn [checkSubscriptions].
    - destruct (String.eqb (sub_Stage s) "") eqn:E1; [discriminate|].
      destruct (sub_Events s) eqn:E2; [discriminate|].
      exfalso. apply Hs. split; [now apply eqb_nonempty | congruence].
    - destruct (String.eqb (sub_Stage s) ""); [discriminate|].
      destruct (length (sub_Events s) =? 0)%nat; [discriminate | exact IH]. }
  unfold ValidateMessage.
  rewrite (validate_past_fields _ _ _ Hc Hn).
  set (m1 := fst (CreateConversation _ _ _ _)).
  assert (Hm1 : channels (slackClient v) !! channelID_at (size (channels (slackClient v))) = None
                /\ ChannelExists m1 (channelID_at (size (channels (slackClient v)))) = true
                /\ size (channels m1) = S (size (channels (slackClient v)))
                /\ lastChannelReq m1 = spec_SlackChannel (msg_Spec msg)).
  { split; [now apply fresh_id|]. split; [apply ChannelExists_created|].
    split; [now apply CreateConversation_size | reflexivity]. }
  destruct Hm1 as (Hf & Hex & Hsz & Hl).
  assert (Hne : m1 <> slackClient v).
  { intros E. rewrite E in Hsz. lia. }
  destruct (checkSubscriptions (spec_Subscriptions (msg_Spec msg))) as [e|];
    [|congruence].
  destruct (select _ _ _); cbn [fst snd deny wresp_Response resp_Allowed];
    repeat split; auto; discriminate.
Qed.

Lemma C9_denied_validation_still_creates_witness :
  resp_Allowed (wresp_Response
    (fst (snd (ValidateMessage (NewValidator NewMockSlackClient) env0 Background badSubsMsg))))
  = false /\
  ChannelExists
    (fst (ValidateMessage (NewValidator NewMockSlackClient) env0 Background badSubsMsg))
    "C00000000" = true.
Proof.
  assert (Hbad : Exists (fun s => ~ sub_ok s) (spec_Subscriptions (msg_Spec badSubsMsg))).
  { apply Exists_cons_tl, Exists_cons_hd. intros [_ H]. now apply H. }
  pose proof (C9_denied_validation_still_creates (NewValidator NewMockSlackClient) env0
    Background badSubsMsg reachable_new ltac:(discriminate) ltac:(discriminate) Hbad) as H.
  cbv zeta in H. destruct H as (H1 & _ & _ & H2 & _).
  split; [exact H1 | exact H2].
Defined.

(** ** Claims about the validator *)

Lemma select_in_time (v : Validator) (ctx : Context) (d : Z) (b : bool) :
  received_in_time v ctx d -> select d (WithTimeout ctx (timeout v)) b = RecvDone.
Proof.
  intros [Ht Hp]. unfold WithTimeout, select.
  destruct ctx as [[t e]|].
  - specialize (Hp t e eq_refl).
    destruct (t <? timeout v) eqn:E.
    + assert (H : (d <? t) = true) by (apply Z.ltb_lt; lia). now rewrite H.
    + assert (H : (d <? timeout v) = true) by (apply Z.ltb_lt; lia). now rewrite H.
  - assert (H : (d <? timeout v) = true) by (apply Z.ltb_lt; lia). now rewrite H.
Qed.


(** C1. A candidate with a non-empty channel, a non-empty namespace and
    only well-formed subscriptions is allowed with no error, provided the
    check (which takes its 100ms sleep plus the goroutine's latency) is
    received before the deadline.  The check client needs no assumption:
    creation always succeeds and the created channel is always found. *)
Theorem C1_valid_candidate_allowed (v : Validator) (env : Env) (ctx : Context)
    (msg : MockKargoMessage) :
  spec_SlackChannel (msg_Spec msg) <> "" ->
  meta_Namespace (msg_Metadata msg) <> "" ->
  Forall sub_ok (spec_Subscriptions (msg_Spec msg)) ->
  received_in_time v ctx (100 * Millisecond + latency env) ->
  snd (ValidateMessage v env ctx msg) = (newResponse (now_UnixNano env), None) /\
  resp_Allowed (wresp_Response (fst (snd (ValidateMessage v env ctx msg)))) = true /\
  resp_Result (wresp_Response (fst (snd (ValidateMessage v env ctx msg)))) = None.
Proof.
  intros Hc Hn Hs Ht.
  assert (E : snd (ValidateMessage v env ctx msg) = (newResponse (now_UnixNano env), None)).
  { unfold ValidateMessage.
    rewrite (validate_past_fields _ _ _ Hc Hn), (checkSubscriptions_ok _ Hs).
    now rewrite (select_in_time _ _ _ _ Ht). }
  rewrite E. repeat split.
Qed.

Lemma C1_valid_candidate_allowed_witness :
  snd (ValidateMessage (NewValidator NewMockSlackClient) env0 Background successMsg)
  = (newResponse (now_UnixNano env0), None) /\
  resp_Allowed (wresp_Response (fst (snd
    (ValidateMessage (NewValidator NewMockSlackClient) env0 Background successMsg)))) = true.
Proof.
  assert (Hs : Forall sub_ok (spec_Subscriptions (msg_Spec successMsg))).
  { repeat constructor; discriminate. }
  assert (Ht : received_in_time (NewValidator NewMockSlackClient) Background
                 (100 * Millisecond + latency env0)).
  { split; [reflexivity | discriminate]. }
  destruct (C1_valid_candidate_allowed (NewValidator NewMockSlackClient) env0 Background
              successMsg ltac:(discriminate) ltac:(discriminate) Hs Ht) as (H1 & H2 & _).
  split; [exact H1 | exact H2].
Defined.



(** C3 as stated fails: the request of [TestWebhookValidator_HTTPHandler]
    carries the uid test-http-uid, and the response the validator builds
    for its object carries the uid made from the clock. *)
Lemma C3_uid_not_echoed :
  let req := wreq_Request (mkWebhookReq "test-http-uid" (any_map httpTestObject)) in
  let msg := httpTestMsg in
  resp_UID (wresp_Response (fst (snd
    (ValidateMessage (NewValidator NewMockSlackClient) env0 Background msg))))
  = "test-uid-1700000000000000000" /\
  resp_UID (wresp_Response (fst (snd
    (ValidateMessage (NewValidator NewMockSlackClient) env0 Background msg))))
  <> req_UID req.
Proof.
  cbv zeta. split; [vm_compute; reflexivity | vm_compute; discriminate].
Qed.

(** C3, amended. The response of [ValidateMessage] carries a uid of its
    own making, the text test-uid- followed by the decimal Unix time in
    nanoseconds at the call; the validator is not given the request, so
    the uid does not depend on it. *)
Theorem C3_uid_is_generated (v : Validator) (env : Env) (ctx : Context)
    (msg : MockKargoMessage) :
  resp_UID (wresp_Response (fst (snd (ValidateMessage v env ctx msg))))
  = "test-uid-" +:+ sprintf_d (now_UnixNano env).
Proof.
  unfold ValidateMessage.
  destruct (validateSlackChannelCreation _ _ msg) as [[m' slept] err].
  destruct (select _ _ _); [destruct err|]; reflexivity.
Qed.






(** C5. The rules of the domain check are evaluated in a fixed order and
    the first failing one decides: an empty channel fails before anything
    else and leaves the client untouched; with a channel, an empty
    namespace fails next and leaves the client untouched; with both, the
    channel is created (and found) before any subscription is looked at;
    the subscriptions are then checked in list order, stage before events
    within an entry, and the first malformed entry decides the error
    whatever follows it in the list. *)
Theorem C5_rules_in_order_first_failure_wins (m : MockSlackClient) (ctx : Context)
    (msg : MockKargoMessage) :
  let channel := spec_SlackChannel (msg_Spec msg) in
  let ns := meta_Namespace (msg_Metadata msg) in
  let subs := spec_Subscriptions (msg_Spec msg) in
  let created :=
    fst (CreateConversation m ctx channel
           (String.eqb (spec_ChannelType (msg_Spec msg)) "private")) in
  (channel = "" ->
     validateSlackChannelCreation m ctx msg =
       (m, 0, Some (errorString "slackChannel is required"))) /\
  (channel <> "" -> ns = "" ->
     validateSlackChannelCreation m ctx msg =
       (m, 0, Some (errorString "namespace is required"))) /\
  (channel <> "" -> ns <> "" ->
     forall pre s post, subs = (pre ++ s :: post)%list -> Forall sub_ok pre ->
       (sub_Stage s = "" ->
          validateSlackChannelCreation m ctx msg =
            (created, 100 * Millisecond,
             Some (errorString "subscription stage cannot be empty"))) /\
       (sub_Stage s <> "" -> sub_Events s = [] ->
          validateSlackChannelCreation m ctx msg =
            (created, 100 * Millisecond,
             Some (errorString "subscription must have at least one event")))) /\
  (channel <> "" -> ns <> "" -> Forall sub_ok subs ->
     validateSlackChannelCreation m ctx msg = (created, 100 * Millisecond, None)).
Proof.
  cbv zeta. repeat apply conj.
  - intros Hc. unfold validateSlackChannelCreation.
    apply eqb_empty in Hc. now rewrite Hc.
  - intros Hc Hn. unfold validateSlackChannelCreation.
    apply eqb_nonempty in Hc. apply eqb_empty in Hn. now rewrite Hc, Hn.
  - intros Hc Hn pre s post Hsubs Hpre.
    rewrite (validate_past_fields _ _ _ Hc Hn), Hsubs, (checkSubscriptions_skip _ _ Hpre).
    cbn [checkSubscriptions]. split.
    + intros Hs. apply eqb_empty in Hs. now rewrite Hs.
    + intros Hs He. apply eqb_nonempty in Hs. now rewrite Hs, He.
  - intros Hc Hn Hs.
    now rewrite (validate_past_fields _ _ _ Hc Hn), (checkSubscriptions_ok _ Hs).
Qed.

(** The second entry of [badSubsMsg] has no events and the third has no
    stage: the second one decides. *)
Lemma C5_rules_in_order_first_failure_wins_witness :
  validateSlackChannelCreation NewMockSlackClient Background badSubsMsg =
    (fst (CreateConversation NewMockSlackClient Background "kargo-notifications" true),
     100 * Millisecond,
     Some (errorString "subscription must have at least one event")) /\
  validateSlackChannelCreation NewMockSlackClient Background missingChannelMsg =
    (NewMockSlackClient, 0, Some (errorString "slackChannel is required")).
Proof.
  pose proof (C5_rules_in_order_first_failure_wins NewMockSlackClient Background badSubsMsg) as H.
  pose proof (C5_rules_in_order_first_failure_wins NewMockSlackClient Background missingChannelMsg) as H'.
  cbv zeta in H, H'. destruct H as (_ & _ & H & _). destruct H' as (H' & _).
  split; [|exact (H' eq_refl)].
  refine (proj2 (H ltac:(discriminate) ltac:(discriminate)
    [ {| sub_Stage := "production"; sub_Events := ["PromoteSucceeded"] |} ]
    {| sub_Stage := "staging"; sub_Events := [] |}
    [ {| sub_Stage := ""; sub_Events := ["PromoteFailed"] |} ]
    eq_refl _) ltac:(discriminate) eq_refl).
  repeat constructor; discriminate.
Defined.

(** ** The response writer *)

Lemma http_Error_status (w : ResponseWriter) (msg : string) (code : Z) :
  rw_Status w = None -> rw_Status (http_Error w msg code) = Some code.
Proof.
  intros Hw. unfold http_Error, Write, WriteHeader, Header_Set. cbn [rw_Status].
  now rewrite Hw.
Qed.

Lemma http_Error_body (w : ResponseWriter) (msg : string) (code : Z) :
  rw_Body (http_Error w msg code) = rw_Body w +:+ (msg +:+ LF).
Proof.
  unfold http_Error, Write, WriteHeader, Header_Set. cbn [rw_Status rw_Body].
  destruct (rw_Status w); reflexivity.
Qed.

Lemma WriteHeader_body (code : Z) (w : ResponseWriter) :
  rw_Body (WriteHeader code w) = rw_Body w.
Proof. unfold WriteHeader. destruct (rw_Status w); reflexivity. Qed.

Lemma Write_body (data : string) (w : ResponseWriter) :
  rw_Body (Write data w) = rw_Body w +:+ data.
Proof. unfold Write, WriteHeader. destruct (rw_Status w); reflexivity. Qed.

Lemma Write_status_fresh (data : string) (w : ResponseWriter) :
  rw_Status w = None -> rw_Status (Write data w) = Some StatusOK.
Proof. intros Hw. unfold Write, WriteHeader. now rewrite Hw. Qed.

Lemma Write_status_set (data : string) (w : ResponseWriter) (code : Z) :
  rw_Status w = Some code -> rw_Status (Write data w) = Some code.
Proof. intros Hw. unfold Write, WriteHeader. now rewrite Hw. Qed.

(** ** The two outcomes of the validator *)

(** An error from [ValidateMessage] always comes with a denial envelope:
    the fixed version and kind, not allowed, and a result that has the
    status Failure and a reason. *)
Lemma ValidateMessage_error_denies (v : Validator) (env : Env) (ctx : Context)
    (msg : MockKargoMessage) :
  snd (snd (ValidateMessage v env ctx msg)) <> None ->
  exists reason,
    fst (snd (ValidateMessage v env ctx msg)) = deny (newResponse (now_UnixNano env)) reason.
Proof.
  unfold ValidateMessage.
  destruct (validateSlackChannelCreation _ _ msg) as [[m' slept] err].
  destruct (select _ _ _); [destruct err|]; cbn [fst snd]; intros H;
    try congruence; eauto.
Qed.

Lemma ValidateMessage_ok_allows (v : Validator) (env : Env) (ctx : Context)
    (msg : MockKargoMessage) :
  snd (snd (ValidateMessage v env ctx msg)) = None ->
  fst (snd (ValidateMessage v env ctx msg)) = newResponse (now_UnixNano env).
Proof.
  unfold ValidateMessage.
  destruct (validateSlackChannelCreation _ _ msg) as [[m' slept] err].
  destruct (select _ _ _); [destruct err|]; cbn [fst snd]; intros H;
    congruence.
Qed.

(** ** Claims about the transport adapter *)

Section AdapterProperties.

Variable Unmarshal_WebhookRequest : string -> WebhookRequest + error.
Variable Marshal_object : list (string * any) -> string.
Variable Unmarshal_MockKargoMessage : string -> MockKargoMessage.
Variable Marshal_WebhookResponse : WebhookResponse -> string.

Local Abbreviation handler :=
  (WebhookHandler Unmarshal_WebhookRequest Marshal_object
     Unmarshal_MockKargoMessage Marshal_WebhookResponse).

(** C6. A body that [json.Unmarshal] rejects, or a request whose object
    field did not decode to a map, is answered with status 400 and a
    plain-text message; the validator is not called: the client state is
    the one the handler was entered with, nothing of an envelope is
    written, and the clock and the scheduler play no part. *)
Theorem C6_malformed_request_is_client_error (v : Validator) (env : Env)
    (w : ResponseWriter) (r : Request) (body : string) :
  rw_Status w = None ->
  Body r = inl body ->
  (exists e, Unmarshal_WebhookRequest body = inr e) \/
  (exists req, Unmarshal_WebhookRequest body = inl req /\
               forall obj, req_Object (wreq_Request req) <> any_map obj) ->
  exists text,
    handler v env w r = (slackClient v, http_Error w text StatusBadRequest) /\
    rw_Status (snd (handler v env w r)) = Some StatusBadRequest /\
    rw_Body (snd (handler v env w r)) = rw_Body w +:+ (text +:+ LF) /\
    (forall env', handler v env' w r = handler v env w r).
Proof.
  intros Hw Hb Hcase. unfold handler, WebhookHandler. rewrite Hb.
  destruct Hcase as [[e He] | (req & Hreq & Hobj)].
  - rewrite He. exists "Failed to parse JSON". cbn [snd].
    rewrite (http_Error_status _ _ _ Hw), http_Error_body. repeat split.
  - rewrite Hreq. exists "Invalid object format".
    destruct (req_Object (wreq_Request req)) as [| | | | |obj] eqn:E;
      try (cbn [snd]; rewrite (http_Error_status _ _ _ Hw), http_Error_body;
           repeat split).
    exfalso. exact (Hobj obj eq_refl).
Qed.

(** C7. Once the request has decoded to an object map, the handler writes
    the validator's envelope as the body in both outcomes.  With an error
    the status is 500 and the envelope is a complete denial (version,
    kind, uid, not allowed, result with status Failure and a reason); with
    no error the status is 200, the content type is JSON and the envelope
    is the allowing one. *)
Theorem C7_status_follows_validator_error (v : Validator) (env : Env)
    (w : ResponseWriter) (r : Request) (body : string) (req : WebhookRequest)
    (obj : list (string * any)) :
  rw_Status w = None ->
  Body r = inl body ->
  Unmarshal_WebhookRequest body = inl req ->
  req_Object (wreq_Request req) = any_map obj ->
  let msg := Unmarshal_MockKargoMessage (Marshal_object obj) in
  let resp := fst (snd (ValidateMessage v env (Ctx r) msg)) in
  let err := snd (snd (ValidateMessage v env (Ctx r) msg)) in
  fst (handler v env w r) = fst (ValidateMessage v env (Ctx r) msg) /\
  rw_Body (snd (handler v env w r)) =
    rw_Body w +:+ (Marshal_WebhookResponse resp +:+ LF) /\
  (err <> None ->
     rw_Status (snd (handler v env w r)) = Some StatusInternalServerError /\
     exists reason, resp = deny (newResponse (now_UnixNano env)) reason) /\
  (err = None ->
     rw_Status (snd (handler v env w r)) = Some StatusOK /\
     rw_Header (snd (handler v env w r)) !! "Content-Type" = Some ["application/json"] /\
     resp = newResponse (now_UnixNano env)).
Proof.
  intros Hw Hb Hreq Hobj. cbv zeta.
  pose proof (ValidateMessage_error_denies v env (Ctx r)
                (Unmarshal_MockKargoMessage (Marshal_object obj))) as Hden.
  pose proof (ValidateMessage_ok_allows v env (Ctx r)
                (Unmarshal_MockKargoMessage (Marshal_object obj))) as Hok.
  unfold handler, WebhookHandler. rewrite Hb, Hreq, Hobj.
  destruct (ValidateMessage v env (Ctx r)
              (Unmarshal_MockKargoMessage (Marshal_object obj))) as [m' [resp err]].
  cbn [fst snd] in *.
  destruct err as [e|]; cbn [fst snd]; unfold Encode_WebhookResponse;
    rewrite Write_body, ?WriteHeader_body;
    (split; [reflexivity|]); (split; [reflexivity|]); split.
  - intros _. split; [|apply Hden; discriminate].
    apply Write_status_set. unfold WriteHeader. now rewrite Hw.
  - discriminate.
  - intros H. now contradiction H.
  - intros _. split; [|split]; [| |now apply Hok].
    + apply Write_status_fresh. exact Hw.
    + unfold Write, WriteHeader, Header_Set. cbn [rw_Status rw_Header].
      rewrite Hw. cbn [rw_Header]. apply lookup_insert_eq.
Qed.

End AdapterProperties.

Lemma C6_malformed_request_is_client_error_witness :
  (exists text,
     WebhookHandler table_Unmarshal_WebhookRequest table_Marshal_object
       table_Unmarshal_MockKargoMessage table_Marshal_WebhookResponse
       (NewValidator NewMockSlackClient) env0 NewRecorder (postRequest "{" ∅)
     = (NewMockSlackClient, http_Error NewRecorder text StatusBadRequest)) /\
  (exists text,
     WebhookHandler table_Unmarshal_WebhookRequest table_Marshal_object
       table_Unmarshal_MockKargoMessage table_Marshal_WebhookResponse
       (NewValidator NewMockSlackClient) env0 NewRecorder (postRequest "string-object" ∅)
     = (NewMockSlackClient, http_Error NewRecorder text StatusBadRequest)).
Proof.
  split.
  - destruct (C6_malformed_request_is_client_error
                table_Unmarshal_WebhookRequest table_Marshal_object
                table_Unmarshal_MockKargoMessage table_Marshal_WebhookResponse
                (NewValidator NewMockSlackClient) env0 NewRecorder (postRequest "{" ∅) "{"
                eq_refl eq_refl
                (or_introl (ex_intro _ (errorString "unexpected end of JSON input") eq_refl)))
      as (text & H & _).
    exists text. exact H.
  - assert (Hobj : exists req,
              table_Unmarshal_WebhookRequest "string-object" = inl req /\
              forall obj, req_Object (wreq_Request req) <> any_map obj).
    { exists (mkWebhookReq "uid-3" (any_string "not a mapping")).
      split; [reflexivity|]. intros obj H. cbn in H. discriminate H. }
    destruct (C6_malformed_request_is_client_error
                table_Unmarshal_WebhookRequest table_Marshal_object
                table_Unmarshal_MockKargoMessage table_Marshal_WebhookResponse
                (NewValidator NewMockSlackClient) env0 NewRecorder
                (postRequest "string-object" ∅) "string-object"
                eq_refl eq_refl (or_intror Hobj))
      as (text & H & _).
    exists text. exact H.
Defined.

Lemma C7_status_follows_validator_error_witness :
  rw_Status (snd
    (WebhookHandler table_Unmarshal_WebhookRequest table_Marshal_object
       table_Unmarshal_MockKargoMessage table_Marshal_WebhookResponse
       (NewValidator NewMockSlackClient) env0 NewRecorder (postRequest "empty-object" ∅)))
  = Some StatusInternalServerError /\
  rw_Status (snd
    (WebhookHandler table_Unmarshal_WebhookRequest table_Marshal_object
       table_Unmarshal_MockKargoMessage table_Marshal_WebhookResponse
       (NewValidator NewMockSlackClient) env0 NewRecorder (postRequest "http-test" ∅)))
  = Some StatusOK.
Proof.
  split.
  - pose proof (C7_status_follows_validator_error
                  table_Unmarshal_WebhookRequest table_Marshal_object
                  table_Unmarshal_MockKargoMessage table_Marshal_WebhookResponse
                  (NewValidator NewMockSlackClient) env0 NewRecorder
                  (postRequest "empty-object" ∅) "empty-object"
                  (mkWebhookReq "uid-2" (any_map [])) []
                  eq_refl eq_refl eq_refl eq_refl) as H.
    cbv zeta in H. destruct H as (_ & _ & H & _).
    apply H. vm_compute. discriminate.
  - pose proof (C7_status_follows_validator_error
                  table_Unmarshal_WebhookRequest table_Marshal_object
                  table_Unmarshal_MockKargoMessage table_Marshal_WebhookResponse
                  (NewValidator NewMockSlackClient) env0 NewRecorder
                  (postRequest "http-test" ∅) "http-test"
                  (mkWebhookReq "test-http-uid" (any_map httpTestObject)) httpTestObject
                  eq_refl eq_refl eq_refl eq_refl) as H.
    cbv zeta in H. destruct H as (_ & _ & _ & H).
    apply H. vm_compute. reflexivity.
Defined.

(** ** Claims about the logging receiver *)

(** The four branches of the receiver, as equations. *)
Lemma receiver_not_post (Marshal_stringmap : gmap string string -> string)
    (w : ResponseWriter) (r : Request) :
  Method r <> MethodPost ->
  Receiver.webhookHandler Marshal_stringmap w r =
    http_Error w "Method not allowed" StatusMethodNotAllowed.
Proof.
  intros Hm. unfold Receiver.webhookHandler.
  apply String.eqb_neq in Hm. now rewrite Hm.
Qed.

Lemma receiver_no_secret (Marshal_stringmap : gmap string string -> string)
    (w : ResponseWriter) (r : Request) :
  Method r = MethodPost ->
  Header_Get (Header r) Receiver.secretHeader = "" ->
  Receiver.webhookHandler Marshal_stringmap w r =
    http_Error w "Missing secret header" StatusUnauthorized.
Proof.
  intros Hm Hs. unfold Receiver.webhookHandler.
  apply String.eqb_eq in Hm. rewrite Hm, Hs. reflexivity.
Qed.

Lemma receiver_wrong_secret (Marshal_stringmap : gmap string string -> string)
    (w : ResponseWriter) (r : Request) :
  Method r = MethodPost ->
  Header_Get (Header r) Receiver.secretHeader <> "" ->
  Header_Get (Header r) Receiver.secretHeader <> Receiver.expectedSecret ->
  Receiver.webhookHandler Marshal_stringmap w r = http_Error w "Forbidden" StatusForbidden.
Proof.
  intros Hm Hs Hx. unfold Receiver.webhookHandler.
  apply String.eqb_eq in Hm. apply String.eqb_neq in Hs. apply String.eqb_neq in Hx.
  now rewrite Hm, Hs, Hx.
Qed.

Lemma receiver_right_secret (Marshal_stringmap : gmap string string -> string)
    (w : ResponseWriter) (r : Request) :
  Method r = MethodPost ->
  Header_Get (Header r) Receiver.secretHeader = Receiver.expectedSecret ->
  Receiver.webhookHandler Marshal_stringmap w r =
    match Body r with
    | inr _ => http_Error w "Bad request" StatusBadRequest
    | inl _ =>
        Write (Marshal_stringmap (<["message" := "Webhook received successfully"]> ∅) +:+ LF)
          (WriteHeader StatusOK (Header_Set "Content-Type" "application/json" w))
    end.
Proof.
  intros Hm Hx. unfold Receiver.webhookHandler.
  apply String.eqb_eq in Hm. rewrite Hm, Hx. reflexivity.
Qed.

(** C10 as stated fails: a POST whose secret header is present with an
    empty value carries a secret that differs from the expected one, and
    is answered with 401, not 403. *)
Lemma C10_empty_secret_is_unauthorized :
  let r := postRequest "{}" (<[Receiver.secretHeader := [""]]> ∅) in
  Method r = MethodPost /\
  Header r !! Receiver.secretHeader = Some [""] /\
  Header_Get (Header r) Receiver.secretHeader <> Receiver.expectedSecret /\
  rw_Status (Receiver.webhookHandler table_Marshal_stringmap NewRecorder r)
    = Some StatusUnauthorized /\
  rw_Status (Receiver.webhookHandler table_Marshal_stringmap NewRecorder r)
    <> Some StatusForbidden.
Proof.
  cbv zeta. repeat split; try (vm_compute; reflexivity); vm_compute; discriminate.
Qed.

(** C10, amended. The receiver decides in this order, and reads the body
    only in the last case: a method other than POST gives 405; a POST
    whose secret header is missing, or whose first value is empty, gives
    401; a POST whose first secret value is non-empty and differs from
    the expected secret gives 403; a POST with the expected secret gives
    the success echo with status 200 when the body can be read, and 400
    when it cannot.  So status 200 is written exactly for a POST with the
    expected secret and a readable body. *)
Theorem C10_receiver_checks_in_order (Marshal_stringmap : gmap string string -> string)
    (w : ResponseWriter) (r : Request) :
  rw_Status w = None ->
  let secret := Header_Get (Header r) Receiver.secretHeader in
  let out := Receiver.webhookHandler Marshal_stringmap w r in
  (Method r <> MethodPost ->
     out = http_Error w "Method not allowed" StatusMethodNotAllowed /\
     rw_Status out = Some StatusMethodNotAllowed) /\
  (Method r = MethodPost ->
     Header r !! Receiver.secretHeader = None \/ secret = "" ->
     out = http_Error w "Missing secret header" StatusUnauthorized /\
     rw_Status out = Some StatusUnauthorized) /\
  (Method r = MethodPost -> secret <> "" -> secret <> Receiver.expectedSecret ->
     out = http_Error w "Forbidden" StatusForbidden /\
     rw_Status out = Some StatusForbidden) /\
  (Method r = MethodPost -> secret = Receiver.expectedSecret ->
     (forall e, Body r = inr e ->
        out = http_Error w "Bad request" StatusBadRequest /\
        rw_Status out = Some StatusBadRequest) /\
     (forall body, Body r = inl body ->
        rw_Status out = Some StatusOK /\
        rw_Body out = rw_Body w +:+
          (Marshal_stringmap (<["message" := "Webhook received successfully"]> ∅) +:+ LF))) /\
  (rw_Status out = Some StatusOK <->
     Method r = MethodPost /\ secret = Receiver.expectedSecret /\
     exists body, Body r = inl body).
Proof.
  intros Hw. cbv zeta.
  assert (Hmiss : Header r !! Receiver.secretHeader = None ->
                  Header_Get (Header r) Receiver.secretHeader = "").
  { intros H. unfold Header_Get. now rewrite H. }
  split; [|split; [|split; [|split]]].
  - intros Hm. rewrite (receiver_not_post _ _ _ Hm).
    split; [reflexivity | now apply http_Error_status].
  - intros Hm Hs.
    assert (Hs' : Header_Get (Header r) Receiver.secretHeader = "")
      by (destruct Hs; auto).
    rewrite (receiver_no_secret _ _ _ Hm Hs').
    split; [reflexivity | now apply http_Error_status].
  - intros Hm Hs Hx. rewrite (receiver_wrong_secret _ _ _ Hm Hs Hx).
    split; [reflexivity | now apply http_Error_status].
  - intros Hm Hx. rewrite (receiver_right_secret _ _ _ Hm Hx). split.
    + intros e He. rewrite He. split; [reflexivity | now apply http_Error_status].
    + intros body Hb. rewrite Hb. split.
      * apply Write_status_set. unfold WriteHeader, Header_Set. cbn [rw_Status].
        now rewrite Hw.
      * now rewrite Write_body, WriteHeader_body.
  - destruct (string_dec (Method r) MethodPost) as [Hm|Hm].
    2:{ rewrite (receiver_not_post _ _ _ Hm), (http_Error_status _ _ _ Hw).
        split; [discriminate | intros (H & _); contradiction]. }
    destruct (string_dec (Header_Get (Header r) Receiver.secretHeader) "") as [Hs|Hs].
    { rewrite (receiver_no_secret _ _ _ Hm Hs), (http_Error_status _ _ _ Hw).
      split; [discriminate | intros (_ & H & _); rewrite Hs in H; discriminate H]. }
    destruct (string_dec (Header_Get (Header r) Receiver.secretHeader)
                Receiver.expectedSecret) as [Hx|Hx].
    2:{ rewrite (receiver_wrong_secret _ _ _ Hm Hs Hx), (http_Error_status _ _ _ Hw).
        split; [discriminate | intros (_ & H & _); contradiction]. }
    rewrite (receiver_right_secret _ _ _ Hm Hx).
    destruct (Body r) as [body|e].
    + split; [intros _; eauto|]. intros _.
      apply Write_status_set. unfold WriteHeader, Header_Set. cbn [rw_Status].
      now rewrite Hw.
    + rewrite (http_Error_status _ _ _ Hw).
      split; [discriminate | intros (_ & _ & body & H); discriminate H].
Qed.

Lemma C10_receiver_checks_in_order_witness :
  rw_Status (Receiver.webhookHandler table_Marshal_stringmap NewRecorder
               (postRequest "{}" (<[Receiver.secretHeader := ["wrong"]]> ∅)))
  = Some StatusForbidden /\
  rw_Status (Receiver.webhookHandler table_Marshal_stringmap NewRecorder
               (postRequest "{}" (<[Receiver.secretHeader := [Receiver.expectedSecret]]> ∅)))
  = Some StatusOK.
Proof.
  split.
  - pose proof (C10_receiver_checks_in_order table_Marshal_stringmap NewRecorder
                  (postRequest "{}" (<[Receiver.secretHeader := ["wrong"]]> ∅)) eq_refl) as H.
    cbv zeta in H. destruct H as (_ & _ & H & _).
    refine (proj2 (H eq_refl _ _)); vm_compute; discriminate.
  - pose proof (C10_receiver_checks_in_order table_Marshal_stringmap NewRecorder
                  (postRequest "{}" (<[Receiver.secretHeader := [Receiver.expectedSecret]]> ∅))
                  eq_refl) as H.
    cbv zeta in H. destruct H as (_ & _ & _ & H & _).
    refine (proj1 (proj2 (H eq_refl _) "{}" eq_refl)). vm_compute. reflexivity.
Defined.

(** * Further properties of the code *)

(** ** The registry of the mock client *)

Lemma CreateConversation_complete (m : MockSlackClient) (ctx : Context)
    (name : string) (isPrivate : bool) :
  ids_dense m -> ids_complete m ->
  ids_complete (fst (CreateConversation m ctx name isPrivate)).
Proof.
  intros Hd Hc i Hi.
  rewrite (CreateConversation_size m ctx name isPrivate Hd) in Hi.
  rewrite CreateConversation_eq. cbn [fst channels].
  destruct (decide (i = size (channels m))) as [->|Hne].
  - rewrite lookup_insert_eq. eauto.
  - rewrite lookup_insert_ne.
    + apply Hc. lia.
    + intros E. apply channelID_at_inj in E. lia.
Qed.

Lemma run_op_complete (m : MockSlackClient) (op : client_op) :
  ids_dense m -> ids_complete m -> ids_complete (run_op m op).
Proof.
  intros Hd Hc. destruct op as [ctx name p| id |ctx msg]; cbn [run_op].
  - now apply CreateConversation_complete.
  - exact Hc.
  - rewrite validate_client.
    repeat match goal with |- context [if ?b then _ else _] => destruct b end;
      auto using CreateConversation_complete.
Qed.

Lemma reachable_complete (m : MockSlackClient) : reachable m -> ids_complete m.
Proof.
  induction 1 as [|m op Hr IH].
  - intros i Hi. cbn in Hi. rewrite map_size_empty in Hi. lia.
  - apply run_op_complete; [now apply reachable_dense | exact IH].
Qed.

(** One operation adds one record when it reaches [CreateConversation]
    and none otherwise. *)
Lemma run_op_size (m : MockSlackClient) (op : client_op) :
  ids_dense m ->
  size (channels (run_op m op)) =
  (size (channels m) + (if creates op then 1 else 0))%nat.
Proof.
  intros Hd. destruct op as [ctx name p| id |ctx msg]; cbn [run_op creates].
  - rewrite (CreateConversation_size _ _ _ _ Hd). lia.
  - lia.
  - rewrite validate_client.
    destruct (String.eqb (spec_SlackChannel (msg_Spec msg)) ""); cbn [negb andb]; [lia|].
    destruct (String.eqb (meta_Namespace (msg_Metadata msg)) ""); cbn [negb andb]; [lia|].
    rewrite (CreateConversation_size _ _ _ _ Hd). lia.
Qed.

Lemma run_ops_dense (ops : list client_op) (m : MockSlackClient) :
  ids_dense m -> ids_dense (run_ops m ops).
Proof.
  revert m. induction ops as [|op ops IH]; intros m Hd; [exact Hd|].
  cbn [run_ops fold_left]. apply IH, run_op_dense, Hd.
Qed.

Lemma run_ops_size_mono (ops : list client_op) (m : MockSlackClient) :
  ids_dense m -> (size (channels m) <= size (channels (run_ops m ops)))%nat.
Proof.
  revert m. induction ops as [|op ops IH]; intros m Hd; [cbn; lia|].
  cbn [run_ops fold_left].
  pose proof (IH (run_op m op) (run_op_dense _ _ Hd)) as H.
  unfold run_ops in H. rewrite (run_op_size _ op Hd) in H. lia.
Qed.

Lemma reachable_run_ops (ops : list client_op) (m : MockSlackClient) :
  reachable m -> reachable (run_ops m ops).
Proof.
  revert m. induction ops as [|op ops IH]; intros m Hr; [exact Hr|].
  cbn [run_ops fold_left]. apply IH. now constructor.
Qed.

(** X1. On a client reached from [NewMockSlackClient] the registry holds
    exactly the identifiers handed out so far: [ChannelExists] answers
    true for an identifier if and only if it is [C%08x] of some number
    below the current number of records.  In particular nothing exists
    on a new client. *)
Theorem X1_registry_holds_exactly_the_issued_ids (m : MockSlackClient) (id : string) :
  reachable m ->
  (ChannelExists m id = true <->
   exists i, (i < size (channels m))%nat /\ id = channelID_at i).
Proof.
  intros Hr. rewrite ChannelExists_true. split.
  - apply (reachable_dense m Hr).
  - intros (i & Hi & ->). now apply (reachable_complete m Hr).
Qed.

Lemma X1_registry_holds_exactly_the_issued_ids_witness :
  ChannelExists
    (run_ops NewMockSlackClient
       [OpCreate Background "general" false; OpValidate Background successMsg])
    "C00000001" = true.
Proof.
  apply (X1_registry_holds_exactly_the_issued_ids
           (run_ops NewMockSlackClient
              [OpCreate Background "general" false; OpValidate Background successMsg])
           "C00000001").
  - apply reachable_run_ops, reachable_new.
  - exists 1%nat. split; [vm_compute; lia | reflexivity].
Defined.

(** X2. Two calls of [CreateConversation] on the same client never return
    the same identifier, whatever happens on the client between them. *)
Theorem X2_identifiers_are_never_reused (m : MockSlackClient) (ctx1 ctx2 : Context)
    (name1 name2 : string) (p1 p2 : bool) (ops : list client_op) :
  reachable m ->
  let first := CreateConversation m ctx1 name1 p1 in
  let second := CreateConversation (run_ops (fst first) ops) ctx2 name2 p2 in
  fst (snd first) <> fst (snd second).
Proof.
  intros Hr. cbv zeta. apply reachable_dense in Hr.
  rewrite !CreateConversation_eq. cbn [fst snd].
  intros E. apply channelID_at_inj in E.
  pose proof (run_ops_size_mono ops _ (CreateConversation_dense m ctx1 name1 p1 Hr)) as Hmono.
  rewrite (CreateConversation_size _ _ _ _ Hr), CreateConversation_eq in Hmono.
  cbn [fst] in Hmono. lia.
Qed.

Lemma X2_identifiers_are_never_reused_witness :
  fst (snd (CreateConversation NewMockSlackClient Background "general" false)) <>
  fst (snd (CreateConversation
              (run_ops (fst (CreateConversation NewMockSlackClient Background "general" false))
                 [OpExists "C00000000"; OpValidate Background missingChannelMsg])
              Background "general" false)).
Proof.
  exact (X2_identifiers_are_never_reused NewMockSlackClient Background Background
           "general" "general" false false
           [OpExists "C00000000"; OpValidate Background missingChannelMsg] reachable_new).
Defined.

(** X3. Along a history of operations applied one after the other to a
    client reached from [NewMockSlackClient], no creation overwrites
    another: the registry grows by exactly the number of operations of
    the history that reached [CreateConversation] (direct calls, and runs
    of the domain check whose channel and namespace are both present). *)
Theorem X3_registry_grows_by_number_of_creations (m : MockSlackClient)
    (ops : list client_op) :
  reachable m ->
  size (channels (run_ops m ops)) =
  (size (channels m) + length (filter (fun op => creates op = true) ops))%nat.
Proof.
  intros Hr. apply reachable_dense in Hr. revert m Hr.
  induction ops as [|op ops IH]; intros m Hd; [cbn; lia|].
  cbn [run_ops fold_left]. fold (run_ops (run_op m op) ops).
  rewrite (IH _ (run_op_dense _ _ Hd)), (run_op_size _ _ Hd).
  rewrite filter_cons. destruct (creates op); cbn.
  - rewrite decide_True by reflexivity. cbn. lia.
  - rewrite decide_False by discriminate. lia.
Qed.

Lemma X3_registry_grows_by_number_of_creations_witness :
  size (channels
    (run_ops NewMockSlackClient
       [OpValidate Background successMsg; OpValidate Background missingChannelMsg;
        OpExists "C00000000"; OpValidate Background badSubsMsg;
        OpCreate Background "ops" true]))
  = 3%nat.
Proof.
  exact (X3_registry_grows_by_number_of_creations NewMockSlackClient
           [OpValidate Background successMsg; OpValidate Background missingChannelMsg;
            OpExists "C00000000"; OpValidate Background badSubsMsg;
            OpCreate Background "ops" true] reachable_new).
Defined.

Lemma run_op_conversations (m : MockSlackClient) (op : client_op) :
  conversations (run_op m op) = conversations m.
Proof.
  destruct op as [ctx name p| id |ctx msg]; cbn [run_op]; try reflexivity.
  rewrite validate_client.
  repeat match goal with |- context [if ?b then _ else _] => destruct b end;
    reflexivity.
Qed.

(** X4. The [conversations] map of the client is allocated and never
    written: on every client reached from [NewMockSlackClient] it is
    empty, so only [channels] and [lastChannelReq] carry state. *)
Theorem X4_conversations_is_never_written (m : MockSlackClient) :
  reachable m -> conversations m = ∅.
Proof.
  induction 1 as [|m op _ IH]; [reflexivity|].
  now rewrite run_op_conversations.
Qed.

Lemma X4_conversations_is_never_written_witness :
  conversations
    (run_ops NewMockSlackClient
       [OpCreate Background "general" false; OpValidate Background successMsg]) = ∅.
Proof.
  apply X4_conversations_is_never_written.
  apply reachable_run_ops, reachable_new.
Defined.

(** X5. A validation whose channel and namespace are present records the
    request in the client in every schedule, also when the call is denied
    or times out: the new record sits under the next identifier, its flag
    is true exactly when the channel type is the text private, and
    [lastChannelReq] is the requested channel name. *)
Theorem X5_validation_records_channel_and_visibility (v : Validator) (env : Env)
    (ctx : Context) (msg : MockKargoMessage) :
  reachable (slackClient v) ->
  spec_SlackChannel (msg_Spec msg) <> "" ->
  meta_Namespace (msg_Metadata msg) <> "" ->
  let m' := fst (ValidateMessage v env ctx msg) in
  channels m' !! channelID_at (size (channels (slackClient v))) =
    Some (String.eqb (spec_ChannelType (msg_Spec msg)) "private") /\
  lastChannelReq m' = spec_SlackChannel (msg_Spec msg) /\
  (forall id b, channels (slackClient v) !! id = Some b -> channels m' !! id = Some b).
Proof.
  intros Hr Hc Hn. cbv zeta. apply reachable_dense in Hr.
  assert (E : fst (ValidateMessage v env ctx msg) =
              fst (CreateConversation (slackClient v) (WithTimeout ctx (timeout v))
                     (spec_SlackChannel (msg_Spec msg))
                     (String.eqb (spec_ChannelType (msg_Spec msg)) "private"))).
  { unfold ValidateMessage. rewrite (validate_past_fields _ _ _ Hc Hn).
    destruct (select _ _ _); [destruct (checkSubscriptions _)|]; reflexivity. }
  rewrite E. split; [|split].
  - rewrite CreateConversation_eq. cbn [fst channels]. apply lookup_insert_eq.
  - reflexivity.
  - intros id b Hid. now apply CreateConversation_keeps.
Qed.

Lemma X5_validation_records_channel_and_visibility_witness :
  channels (fst (ValidateMessage {| slackClient := NewMockSlackClient;
                                    timeout := 10 * Millisecond |}
                   env0 Background badSubsMsg)) !! "C00000000" = Some true /\
  lastChannelReq (fst (ValidateMessage {| slackClient := NewMockSlackClient;
                                          timeout := 10 * Millisecond |}
                         env0 Background badSubsMsg)) = "kargo-notifications".
Proof.
  pose proof (X5_validation_records_channel_and_visibility
                {| slackClient := NewMockSlackClient; timeout := 10 * Millisecond |}
                env0 Background badSubsMsg reachable_new
                ltac:(discriminate) ltac:(discriminate)) as H.
  cbv zeta in H. destruct H as (H1 & H2 & _).
  split; [exact H1 | exact H2].
Defined.

(** ** The outcomes of [ValidateMessage] *)

Lemma checkSubscriptions_None_inv (subs : list Subscription) :
  checkSubscriptions subs = None -> Forall sub_ok subs.
Proof.
  induction subs as [|s subs IH]; [constructor|].
  cbn [checkSubscriptions].
  destruct (String.eqb (sub_Stage s) "") eqn:Es; [discriminate|].
  destruct (sub_Events s) as [|ev evs] eqn:Ee; [discriminate|].
  cbn. intros H. constructor; [|exact (IH H)].
  split; [now apply eqb_nonempty | congruence].
Qed.

(** When the result of the check is received in time, the outcome of
    [ValidateMessage] is the one the check dictates. *)
Lemma ValidateMessage_in_time (v : Validator) (env : Env) (ctx : Context)
    (msg : MockKargoMessage) :
  let check := validateSlackChannelCreation (slackClient v)
                 (WithTimeout ctx (timeout v)) msg in
  received_in_time v ctx (snd (fst check) + latency env) ->
  snd (ValidateMessage v env ctx msg) =
    match snd check with
    | Some e =>
        (deny (newResponse (now_UnixNano env))
           ("Slack channel validation failed: " +:+ Error e), Some e)
    | None => (newResponse (now_UnixNano env), None)
    end.
Proof.
  cbv zeta. intros Ht. unfold ValidateMessage.
  destruct (validateSlackChannelCreation _ _ msg) as [[m' slept] err].
  cbn [fst snd] in *. rewrite (select_in_time _ _ _ _ Ht).
  destruct err; reflexivity.
Qed.

(** X6. The subscription loop accepts a list exactly when every entry has
    a non-empty stage and at least one event (the empty list is accepted),
    and when it rejects, the error is one of its two messages. *)
Theorem X6_checkSubscriptions_accepts_exactly_wellformed (subs : list Subscription) :
  (checkSubscriptions subs = None <-> Forall sub_ok subs) /\
  (forall e, checkSubscriptions subs = Some e ->
     e = errorString "subscription stage cannot be empty" \/
     e = errorString "subscription must have at least one event").
Proof.
  split; [split; [apply checkSubscriptions_None_inv | apply checkSubscriptions_ok]|].
  induction subs as [|s subs IH]; intros e; cbn [checkSubscriptions]; [discriminate|].
  destruct (String.eqb (sub_Stage s) ""); [intros [= <-]; now left|].
  destruct (length (sub_Events s) =? 0)%nat; [intros [= <-]; now right|].
  apply IH.
Qed.

(** X7. The validator never allows a candidate the check would reject: in
    every schedule, a response with allowed = true comes with a nil error
    and a candidate whose channel and namespace are non-empty and whose
    subscriptions are all well-formed. *)
Theorem X7_allowed_only_for_valid_candidates (v : Validator) (env : Env)
    (ctx : Context) (msg : MockKargoMessage) :
  resp_Allowed (wresp_Response (fst (snd (ValidateMessage v env ctx msg)))) = true ->
  snd (snd (ValidateMessage v env ctx msg)) = None /\
  spec_SlackChannel (msg_Spec msg) <> "" /\
  meta_Namespace (msg_Metadata msg) <> "" /\
  Forall sub_ok (spec_Subscriptions (msg_Spec msg)).
Proof.
  unfold ValidateMessage, validateSlackChannelCreation.
  destruct (String.eqb (spec_SlackChannel (msg_Spec msg)) "") eqn:Ec.
  { destruct (select _ _ _); cbn; discriminate. }
  destruct (String.eqb (meta_Namespace (msg_Metadata msg)) "") eqn:En.
  { destruct (select _ _ _); cbn; discriminate. }
  pose proof (ChannelExists_created (slackClient v) (WithTimeout ctx (timeout v))
                (spec_SlackChannel (msg_Spec msg))
                (String.eqb (spec_ChannelType (msg_Spec msg)) "private")) as Hex.
  rewrite CreateConversation_eq in *. cbn [fst snd] in Hex. rewrite Hex. cbn [negb].
  destruct (checkSubscriptions (spec_Subscriptions (msg_Spec msg))) eqn:Es;
    destruct (select _ _ _); cbn; try discriminate.
  intros _. repeat split.
  - now apply eqb_nonempty.
  - now apply eqb_nonempty.
  - now apply checkSubscriptions_None_inv.
Qed.

Lemma X7_allowed_only_for_valid_candidates_witness :
  snd (snd (ValidateMessage (NewValidator NewMockSlackClient) env0 Background successMsg))
  = None /\
  Forall sub_ok (spec_Subscriptions (msg_Spec successMsg)).
Proof.
  destruct (X7_allowed_only_for_valid_candidates (NewValidator NewMockSlackClient) env0
              Background successMsg eq_refl) as (H1 & _ & _ & H2).
  split; [exact H1 | exact H2].
Defined.

(** X8. In every outcome the error and the allowed flag agree and the
    envelope has a fixed shape: allowed is true exactly when the error is
    nil; an allowing response has no result; a denying response has a
    result with exactly the keys status and reason, status being Failure;
    version and kind are the admission-review constants; and the response
    never carries a patch. *)
Theorem X8_response_shape (v : Validator) (env : Env) (ctx : Context)
    (msg : MockKargoMessage) :
  let resp := fst (snd (ValidateMessage v env ctx msg)) in
  let err := snd (snd (ValidateMessage v env ctx msg)) in
  (resp_Allowed (wresp_Response resp) = true <-> err = None) /\
  (err = None -> resp_Result (wresp_Response resp) = None) /\
  (err <> None ->
     exists reason,
       resp_Result (wresp_Response resp) =
         Some (<["reason" := reason]> (<["status" := "Failure"]> ∅))) /\
  wresp_APIVersion resp = "admission.k8s.io/v1" /\
  wresp_Kind resp = "AdmissionReview" /\
  resp_Patch (wresp_Response resp) = [] /\
  resp_PatchType (wresp_Response resp) = "".
Proof.
  cbv zeta.
  pose proof (ValidateMessage_error_denies v env ctx msg) as Hden.
  pose proof (ValidateMessage_ok_allows v env ctx msg) as Hok.
  destruct (snd (snd (ValidateMessage v env ctx msg))) as [e|].
  - destruct Hden as [reason ->]; [discriminate|]. cbn.
    repeat split; try (intros; congruence); eauto.
  - rewrite (Hok eq_refl). cbn.
    repeat split; try (intros; congruence).
Qed.

(** X9. A failure of the check that is received before the deadline is
    reported as such: the error returned is the check's error, the
    response is the denial whose reason is the text
    Slack channel validation failed: followed by the error's message, and
    that reason is never the timeout reason, so the two kinds of denial
    can be told apart. *)
Theorem X9_check_failure_is_reported (v : Validator) (env : Env) (ctx : Context)
    (msg : MockKargoMessage) (e : error) :
  let check := validateSlackChannelCreation (slackClient v)
                 (WithTimeout ctx (timeout v)) msg in
  snd check = Some e ->
  received_in_time v ctx (snd (fst check) + latency env) ->
  snd (ValidateMessage v env ctx msg) =
    (deny (newResponse (now_UnixNano env))
       ("Slack channel validation failed: " +:+ Error e), Some e) /\
  "Slack channel validation failed: " +:+ Error e <> "Slack channel validation timeout".
Proof.
  cbv zeta. intros He Ht.
  pose proof (ValidateMessage_in_time v env ctx msg) as H. cbv zeta in H.
  rewrite (H Ht), He. split; [reflexivity|].
  cbn. intros E. discriminate E.
Qed.

Lemma X9_check_failure_is_reported_witness :
  snd (ValidateMessage (NewValidator NewMockSlackClient) env0 Background badSubsMsg) =
    (deny (newResponse (now_UnixNano env0))
       "Slack channel validation failed: subscription must have at least one event",
     Some (errorString "subscription must have at least one event")).
Proof.
  refine (proj1 (X9_check_failure_is_reported (NewValidator NewMockSlackClient) env0
                   Background badSubsMsg
                   (errorString "subscription must have at least one event") eq_refl _)).
  split; [reflexivity | discriminate].
Defined.

(** X10. A candidate with a channel and an empty namespace is denied in
    every schedule, with an error and without touching the client (no
    channel is created for it); when the result is received before the
    deadline the error is namespace is required and the reason carries
    that message. *)
Theorem X10_missing_namespace_denied (v : Validator) (env : Env) (ctx : Context)
    (msg : MockKargoMessage) :
  spec_SlackChannel (msg_Spec msg) <> "" ->
  meta_Namespace (msg_Metadata msg) = "" ->
  let resp := fst (snd (ValidateMessage v env ctx msg)) in
  let err := snd (snd (ValidateMessage v env ctx msg)) in
  resp_Allowed (wresp_Response resp) = false /\
  err <> None /\
  fst (ValidateMessage v env ctx msg) = slackClient v /\
  (received_in_time v ctx (latency env) ->
     err = Some (errorString "namespace is required") /\
     resp_Result (wresp_Response resp) =
       Some (<["reason" := "Slack channel validation failed: namespace is required"]>
               (<["status" := "Failure"]> ∅))).
Proof.
  intros Hc Hn. cbv zeta. unfold ValidateMessage, validateSlackChannelCreation.
  apply eqb_nonempty in Hc. apply eqb_empty in Hn. rewrite Hc, Hn.
  change (0 + latency env) with (latency env).
  split; [|split; [|split]].
  - destruct (select _ _ _); reflexivity.
  - destruct (select _ _ _); discriminate.
  - destruct (select _ _ _); reflexivity.
  - intros Ht. rewrite (select_in_time _ _ _ _ Ht). split; reflexivity.
Qed.

Lemma X10_missing_namespace_denied_witness :
  fst (ValidateMessage (NewValidator NewMockSlackClient) env0 Background missingNamespaceMsg)
  = NewMockSlackClient /\
  snd (snd (ValidateMessage (NewValidator NewMockSlackClient) env0 Background
              missingNamespaceMsg))
  = Some (errorString "namespace is required").
Proof.
  assert (Ht : received_in_time (NewValidator NewMockSlackClient) Background (latency env0)).
  { split; [reflexivity | discriminate]. }
  pose proof (X10_missing_namespace_denied (NewValidator NewMockSlackClient) env0 Background
                missingNamespaceMsg ltac:(discriminate) eq_refl) as H.
  cbv zeta in H. destruct H as (_ & _ & H1 & H2).
  split; [exact H1 | exact (proj1 (H2 Ht))].
Defined.

(** X11. When the parent context is done before the validator's own
    budget and before the check completes, the call is denied with the
    timeout reason all the same, and the error returned is the parent's
    error (for a cancelled request, [Canceled]) rather than
    [DeadlineExceeded]. *)
Theorem X11_parent_cancellation_reported_as_timeout (v : Validator) (env : Env)
    (t : Z) (e : error) (msg : MockKargoMessage) :
  t < timeout v ->
  t < snd (fst (validateSlackChannelCreation (slackClient v)
                  (WithTimeout (Some (t, e)) (timeout v)) msg)) + latency env ->
  snd (ValidateMessage v env (Some (t, e)) msg) =
    (deny (newResponse (now_UnixNano env)) "Slack channel validation timeout", Some e).
Proof.
  intros Ht Hd. unfold ValidateMessage.
  destruct (validateSlackChannelCreation _ _ msg) as [[m' slept] err].
  cbn [fst snd] in Hd. unfold WithTimeout, select.
  assert (E1 : (t <? timeout v) = true) by (apply Z.ltb_lt; lia).
  assert (E2 : (slept + latency env <? t) = false) by (apply Z.ltb_ge; lia).
  assert (E3 : (t <? slept + latency env) = true) by (apply Z.ltb_lt; lia).
  now rewrite E1, E2, E3.
Qed.

Lemma X11_parent_cancellation_reported_as_timeout_witness :
  snd (ValidateMessage (NewValidator NewMockSlackClient) env0
         (Some (5 * Millisecond, Canceled)) successMsg) =
    (deny (newResponse (now_UnixNano env0)) "Slack channel validation timeout",
     Some Canceled).
Proof.
  apply (X11_parent_cancellation_reported_as_timeout (NewValidator NewMockSlackClient)
           env0 (5 * Millisecond) Canceled successMsg); reflexivity.
Defined.

(** ** The transport adapter, further *)

Section AdapterFurther.

Variable Unmarshal_WebhookRequest : string -> WebhookRequest + error.
Variable Marshal_object : list (string * any) -> string.
Variable Unmarshal_MockKargoMessage : string -> MockKargoMessage.
Variable Marshal_WebhookResponse : WebhookResponse -> string.

Local Abbreviation handle :=
  (WebhookHandler Unmarshal_WebhookRequest Marshal_object
     Unmarshal_MockKargoMessage Marshal_WebhookResponse).

(** X12. A request whose body cannot be read is answered with status 400
    and the text Failed to read request body; nothing is decoded and the
    validator is not called: the client is unchanged and the answer does
    not depend on the decoder, the clock or the scheduler. *)
Theorem X12_unreadable_body_is_client_error (v : Validator) (env : Env)
    (w : ResponseWriter) (r : Request) (e : error) :
  rw_Status w = None ->
  Body r = inr e ->
  handle v env w r =
    (slackClient v, http_Error w "Failed to read request body" StatusBadRequest) /\
  rw_Status (snd (handle v env w r)) = Some StatusBadRequest /\
  rw_Body (snd (handle v env w r)) = rw_Body w +:+ ("Failed to read request body" +:+ LF).
Proof.
  intros Hw Hb. unfold WebhookHandler. rewrite Hb. cbn [snd].
  rewrite (http_Error_status _ _ _ Hw), http_Error_body. repeat split.
Qed.

(** X13. On a fresh writer the handler answers with status 200, 400 or
    500 and nothing else, and with 200 exactly when the request was read,
    decoded to an object map and allowed by the validator: in this
    handler the transport status and the allowed flag never disagree. *)
Theorem X13_status_ok_exactly_when_allowed (v : Validator) (env : Env)
    (w : ResponseWriter) (r : Request) :
  rw_Status w = None ->
  let status := rw_Status (snd (handle v env w r)) in
  (status = Some StatusOK \/ status = Some StatusBadRequest \/
   status = Some StatusInternalServerError) /\
  (status = Some StatusOK <->
   exists body req obj,
     Body r = inl body /\
     Unmarshal_WebhookRequest body = inl req /\
     req_Object (wreq_Request req) = any_map obj /\
     resp_Allowed (wresp_Response (fst (snd
       (ValidateMessage v env (Ctx r)
          (Unmarshal_MockKargoMessage (Marshal_object obj)))))) = true).
Proof.
  intros Hw. cbv zeta. unfold WebhookHandler.
  destruct (Body r) as [body|e0] eqn:Hb.
  2:{ cbn [snd]. rewrite (http_Error_status _ _ _ Hw). split; [auto|].
      split; [discriminate | intros (b & q & o & H & _); discriminate H]. }
  destruct (Unmarshal_WebhookRequest body) as [req|e0] eqn:Hreq.
  2:{ cbn [snd]. rewrite (http_Error_status _ _ _ Hw). split; [auto|].
      split; [discriminate|].
      intros (b & q & o & H & H' & _). injection H as <-. congruence. }
  destruct (req_Object (wreq_Request req)) as [| | | | |obj] eqn:Hobj;
    try (cbn [snd]; rewrite (http_Error_status _ _ _ Hw); split; [auto|];
         split; [discriminate|];
         intros (bd & q & o & H & H' & H'' & _); injection H as <-;
         rewrite Hreq in H'; injection H' as <-; congruence).
  pose proof (ValidateMessage_error_denies v env (Ctx r)
                (Unmarshal_MockKargoMessage (Marshal_object obj))) as Hden.
  pose proof (ValidateMessage_ok_allows v env (Ctx r)
                (Unmarshal_MockKargoMessage (Marshal_object obj))) as Hok.
  assert (Hsame : forall b q o,
            inl body = inl b (B := error) -> Unmarshal_WebhookRequest b = inl q ->
            req_Object (wreq_Request q) = any_map o -> o = obj).
  { intros b q o H H' H''. injection H as <-. rewrite Hreq in H'. injection H' as <-.
    congruence. }
  destruct (ValidateMessage v env (Ctx r)
              (Unmarshal_MockKargoMessage (Marshal_object obj))) as [m' [resp err]] eqn:Hv.
  cbn [fst snd] in *. unfold Encode_WebhookResponse.
  destruct err as [e0|]; cbn [snd].
  - rewrite (Write_status_set _ _ StatusInternalServerError)
      by (unfold WriteHeader; now rewrite Hw).
    split; [auto|]. split; [discriminate|].
    intros (b & q & o & H & H' & H'' & Ha).
    rewrite (Hsame b q o H H' H''), Hv in Ha. cbn [fst snd] in Ha.
    destruct Hden as [reason ->]; [discriminate|]. discriminate Ha.
  - rewrite Write_status_fresh by exact Hw.
    split; [auto|]. split; [|intros _; reflexivity].
    intros _. exists body, req, obj. rewrite Hv. cbn [fst snd].
    rewrite (Hok eq_refl). split; [reflexivity|]. split; [exact Hreq|].
    split; [exact Hobj | reflexivity].
Qed.

End AdapterFurther.

Lemma X12_unreadable_body_is_client_error_witness :
  WebhookHandler table_Unmarshal_WebhookRequest table_Marshal_object
    table_Unmarshal_MockKargoMessage table_Marshal_WebhookResponse
    (NewValidator NewMockSlackClient) env0 NewRecorder unreadableRequest
  = (NewMockSlackClient,
     http_Error NewRecorder "Failed to read request body" StatusBadRequest).
Proof.
  exact (proj1 (X12_unreadable_body_is_client_error
                  table_Unmarshal_WebhookRequest table_Marshal_object
                  table_Unmarshal_MockKargoMessage table_Marshal_WebhookResponse
                  (NewValidator NewMockSlackClient) env0 NewRecorder unreadableRequest
                  (errorString "unexpected EOF") eq_refl eq_refl)).
Defined.

Lemma X13_status_ok_exactly_when_allowed_witness :
  rw_Status (snd
    (WebhookHandler table_Unmarshal_WebhookRequest table_Marshal_object
       table_Unmarshal_MockKargoMessage table_Marshal_WebhookResponse
       (NewValidator NewMockSlackClient) env0 NewRecorder (postRequest "http-test" ∅)))
  = Some StatusOK.
Proof.
  pose proof (X13_status_ok_exactly_when_allowed
                table_Unmarshal_WebhookRequest table_Marshal_object
                table_Unmarshal_MockKargoMessage table_Marshal_WebhookResponse
                (NewValidator NewMockSlackClient) env0 NewRecorder
                (postRequest "http-test" ∅) eq_refl) as H.
  cbv zeta in H. apply (proj2 H).
  exists "http-test", (mkWebhookReq "test-http-uid" (any_map httpTestObject)), httpTestObject.
  repeat split.
Defined.

Lemma WriteHeader_header (code : Z) (w : ResponseWriter) :
  rw_Header (WriteHeader code w) = rw_Header w.
Proof. unfold WriteHeader. destruct (rw_Status w); reflexivity. Qed.

Lemma Write_header (data : string) (w : ResponseWriter) :
  rw_Header (Write data w) = rw_Header w.
Proof. unfold Write. cbn [rw_Header]. apply WriteHeader_header. Qed.

Section AdapterHeaders.

Variable Unmarshal_WebhookRequest : string -> WebhookRequest + error.
Variable Marshal_object : list (string * any) -> string.
Variable Unmarshal_MockKargoMessage : string -> MockKargoMessage.
Variable Marshal_WebhookResponse : WebhookResponse -> string.

(** X14. When the validator returns an error the handler writes the JSON
    envelope without setting any header: the header map is the one it was
    given, so no Content-Type is declared by the handler on the 500 path,
    unlike the success path, which sets application/json. *)
Theorem X14_error_path_sets_no_header (v : Validator) (env : Env)
    (w : ResponseWriter) (r : Request) (body : string) (req : WebhookRequest)
    (obj : list (string * any)) :
  Body r = inl body ->
  Unmarshal_WebhookRequest body = inl req ->
  req_Object (wreq_Request req) = any_map obj ->
  snd (snd (ValidateMessage v env (Ctx r)
              (Unmarshal_MockKargoMessage (Marshal_object obj)))) <> None ->
  rw_Header (snd (WebhookHandler Unmarshal_WebhookRequest Marshal_object
                    Unmarshal_MockKargoMessage Marshal_WebhookResponse v env w r))
  = rw_Header w.
Proof.
  intros Hb Hreq Hobj Herr. unfold WebhookHandler. rewrite Hb, Hreq, Hobj.
  destruct (ValidateMessage v env (Ctx r)
              (Unmarshal_MockKargoMessage (Marshal_object obj))) as [m' [resp err]].
  cbn [fst snd] in *. destruct err as [e|]; [|now contradiction Herr].
  cbn [snd]. unfold Encode_WebhookResponse.
  now rewrite Write_header, WriteHeader_header.
Qed.

End AdapterHeaders.

Lemma X14_error_path_sets_no_header_witness :
  rw_Header (snd
    (WebhookHandler table_Unmarshal_WebhookRequest table_Marshal_object
       table_Unmarshal_MockKargoMessage table_Marshal_WebhookResponse
       (NewValidator NewMockSlackClient) env0 NewRecorder (postRequest "empty-object" ∅)))
  = rw_Header NewRecorder.
Proof.
  apply (X14_error_path_sets_no_header
           table_Unmarshal_WebhookRequest table_Marshal_object
           table_Unmarshal_MockKargoMessage table_Marshal_WebhookResponse
           (NewValidator NewMockSlackClient) env0 NewRecorder
           (postRequest "empty-object" ∅) "empty-object"
           (mkWebhookReq "uid-2" (any_map [])) [] eq_refl eq_refl eq_refl).
  vm_compute. discriminate.
Defined.

(** ** The logging receiver, further *)

(** X15. The answer of the receiver depends on the request only through
    its method, the first value of the secret header and whether the body
    could be read: two requests that agree on these get the same answer,
    whatever their payloads, their other headers and further values of
    the secret header are.  In particular the payload is never echoed. *)
Theorem X15_receiver_ignores_payload (Marshal_stringmap : gmap string string -> string)
    (w : ResponseWriter) (r1 r2 : Request) (body1 body2 : string) :
  Method r1 = Method r2 ->
  Header_Get (Header r1) Receiver.secretHeader =
    Header_Get (Header r2) Receiver.secretHeader ->
  Body r1 = inl body1 ->
  Body r2 = inl body2 ->
  Receiver.webhookHandler Marshal_stringmap w r1 =
  Receiver.webhookHandler Marshal_stringmap w r2.
Proof.
  intros Hm Hs Hb1 Hb2. unfold Receiver.webhookHandler.
  rewrite Hm, Hs, Hb1, Hb2. reflexivity.
Qed.

Lemma X15_receiver_ignores_payload_witness :
  Receiver.webhookHandler table_Marshal_stringmap NewRecorder
    (postRequest "first payload"
       (<[Receiver.secretHeader := [Receiver.expectedSecret]]> ∅)) =
  Receiver.webhookHandler table_Marshal_stringmap NewRecorder
    (postRequest "second payload"
       (<["Date" := ["today"]]>
          (<[Receiver.secretHeader := [Receiver.expectedSecret; "junk"]]> ∅))).
Proof.
  apply (X15_receiver_ignores_payload table_Marshal_stringmap NewRecorder
           (postRequest "first payload"
              (<[Receiver.secretHeader := [Receiver.expectedSecret]]> ∅))
           (postRequest "second payload"
              (<["Date" := ["today"]]>
                 (<[Receiver.secretHeader := [Receiver.expectedSecret; "junk"]]> ∅)))
           "first payload" "second payload"); vm_compute; reflexivity.
Defined.

(** ** The default validator *)

Lemma validate_ok_inv (m : MockSlackClient) (ctx : Context) (msg : MockKargoMessage) :
  snd (validateSlackChannelCreation m ctx msg) = None ->
  spec_SlackChannel (msg_Spec msg) <> "" /\
  meta_Namespace (msg_Metadata msg) <> "" /\
  Forall sub_ok (spec_Subscriptions (msg_Spec msg)).
Proof.
  destruct (String.eqb (spec_SlackChannel (msg_Spec msg)) "") eqn:Ec.
  { unfold validateSlackChannelCreation. rewrite Ec. discriminate. }
  destruct (String.eqb (meta_Namespace (msg_Metadata msg)) "") eqn:En.
  { unfold validateSlackChannelCreation. rewrite Ec, En. discriminate. }
  apply eqb_nonempty in Ec. apply eqb_nonempty in En.
  rewrite (validate_past_fields _ _ _ Ec En). cbn [snd].
  intros H. auto using checkSubscriptions_None_inv.
Qed.

Lemma validate_slept_le (m : MockSlackClient) (ctx : Context) (msg : MockKargoMessage) :
  snd (fst (validateSlackChannelCreation m ctx msg)) <= 100 * Millisecond.
Proof.
  unfold validateSlackChannelCreation, Millisecond.
  destruct (String.eqb (spec_SlackChannel (msg_Spec msg)) ""); [cbn; lia|].
  destruct (String.eqb (meta_Namespace (msg_Metadata msg)) ""); [cbn; lia|].
  rewrite CreateConversation_eq.
  match goal with |- context [negb ?b] => destruct b end; cbn; lia.
Qed.

(** X16. With the validator [NewValidator] builds (a budget of 30s) and a
    background context, the decision is determined by the fields of the
    candidate alone as long as the goroutine's latency stays below 29.9s:
    the response is allowed if and only if the channel and the namespace
    are non-empty and every subscription has a stage and an event. *)
Theorem X16_default_validator_decides_by_fields (c : MockSlackClient) (env : Env)
    (msg : MockKargoMessage) :
  latency env < 30 * Second - 100 * Millisecond ->
  (resp_Allowed (wresp_Response (fst (snd
     (ValidateMessage (NewValidator c) env Background msg)))) = true <->
   spec_SlackChannel (msg_Spec msg) <> "" /\
   meta_Namespace (msg_Metadata msg) <> "" /\
   Forall sub_ok (spec_Subscriptions (msg_Spec msg))).
Proof.
  intros Hl.
  pose proof (ValidateMessage_in_time (NewValidator c) env Background msg) as H.
  cbv zeta in H.
  pose proof (validate_slept_le (slackClient (NewValidator c))
                (WithTimeout Background (timeout (NewValidator c))) msg) as Hs.
  assert (Ht : received_in_time (NewValidator c) Background
                 (snd (fst (validateSlackChannelCreation (slackClient (NewValidator c))
                              (WithTimeout Background (timeout (NewValidator c))) msg))
                  + latency env)).
  { split; [|discriminate].
    revert Hs.
    generalize (snd (fst (validateSlackChannelCreation (slackClient (NewValidator c))
                            (WithTimeout Background (timeout (NewValidator c))) msg))).
    intros slept Hs. cbn [timeout NewValidator].
    unfold Second, Millisecond in *. lia. }
  rewrite (H Ht). split.
  - destruct (snd (validateSlackChannelCreation _ _ msg)) eqn:E; [discriminate|].
    intros _. exact (validate_ok_inv _ _ _ E).
  - intros (Hc & Hn & Hsub).
    rewrite (validate_past_fields _ _ _ Hc Hn), (checkSubscriptions_ok _ Hsub).
    reflexivity.
Qed.

Lemma X16_default_validator_decides_by_fields_witness :
  resp_Allowed (wresp_Response (fst (snd
    (ValidateMessage (NewValidator NewMockSlackClient) env0 Background successMsg)))) = true.
Proof.
  apply (X16_default_validator_decides_by_fields NewMockSlackClient env0 successMsg).
  - reflexivity.
  - repeat split; try discriminate. repeat constructor; discriminate.
Defined.
